(** * Mirror: the fortune engine, embedded and verified

    A shallow embedding of [fortune_engine.py] (and of the zodiac resolver
    of [astrology.py]): the zodiac resolver, the personality signature, the
    theme classifier, the generated-text cleaner, the per-user memory store
    and the orchestrator [generate_fortune].

    Conventions of the embedding.
    - A Python [str] is a [string] (a sequence of bytes); the methods used by
      the engine ([strip], [split], [count], [lower], ...) are written out on
      it.  Whitespace and case are the ASCII ones.
    - A JSON-like Python value is a [pyval]; a [dict] whose iteration order
      matters is an association list in insertion order.
    - A Python [float] is read as an exact rational ([Q]): sums, averages and
      comparisons are the mathematical ones, rounding is not modelled.
    - The memory file is a finite map from user names to histories
      ([gmap string (list HistoryEntry)]).
    - Code that can raise returns a [result]; code that reads the clock, draws
      random numbers or touches the memory file runs in the monad [M] over a
      [world]. *)

From Stdlib Require Import ZArith QArith Qminmax Ascii String List Bool Lia Permutation.
From stdpp Require Import base option list gmap strings fin_maps.

Open Scope string_scope.
Open Scope Z_scope.

(** String concatenation unfolds on a constructor, as list concatenation does. *)
Arguments String.append !s1 s2 : simpl nomatch.

(* ================================================================== *)
(** * Part I: definitions *)
(* ================================================================== *)

(** ** Exceptions and results *)

(** The subclasses of [Exception] the engine can meet.  [OtherError] stands
    for whatever the generative backend raises. *)
Inductive exn : Type :=
| TypeError | ValueError | AttributeError | IndexError | KeyError
| RuntimeError | OverflowError | OtherError (msg : string).

Inductive result (A : Type) : Type :=
| Ok (a : A)
| Raise (e : exn).
Arguments Ok {A} a.
Arguments Raise {A} e.

Definition rbind {A B} (r : result A) (k : A -> result B) : result B :=
  match r with
  | Ok a => k a
  | Raise e => Raise e
  end.

Declare Scope result_scope.
Delimit Scope result_scope with result.
Notation "x <- r ;; k" := (rbind r (fun x => k))
  (at level 100, r at next level, right associativity) : result_scope.

(** [try: r except Exception: d] *)
Definition try_except {A} (r : result A) (d : A) : A :=
  match r with
  | Ok a => a
  | Raise _ => d
  end.

Definition of_option {A} (o : option A) (e : exn) : result A :=
  match o with
  | Some a => Ok a
  | None => Raise e
  end.

(** ** Python strings *)

(** [c.isspace()] on one byte: TAB..CR, FS..US and the space. *)
Definition is_space (c : ascii) : bool :=
  let n := nat_of_ascii c in
  (((9 <=? n) && (n <=? 13)) || ((28 <=? n) && (n <=? 32)))%nat.

Definition is_digit (c : ascii) : bool :=
  let n := nat_of_ascii c in ((48 <=? n) && (n <=? 57))%nat.

Definition digit_val (c : ascii) : Z := Z.of_nat (nat_of_ascii c) - 48.

Definition nonempty (s : string) : bool :=
  match s with
  | EmptyString => false
  | String _ _ => true
  end.

(** [s.lstrip()], [s.rstrip()], [s.strip()] *)
Fixpoint lstrip (s : string) : string :=
  match s with
  | EmptyString => EmptyString
  | String c s' => if is_space c then lstrip s' else s
  end.

Fixpoint rstrip (s : string) : string :=
  match s with
  | EmptyString => EmptyString
  | String c s' =>
      match rstrip s' with
      | EmptyString => if is_space c then EmptyString else String c EmptyString
      | r => String c r
      end
  end.

Definition strip (s : string) : string := rstrip (lstrip s).

(** The fields of [s] between the characters satisfying [p]; always at least
    one field, possibly empty ones. *)
Fixpoint fields (p : ascii -> bool) (s : string) : list string :=
  match s with
  | EmptyString => [EmptyString]
  | String c s' =>
      if p c then EmptyString :: fields p s'
      else match fields p s' with
           | f :: fs => String c f :: fs
           | [] => [String c EmptyString]
           end
  end.

(** [s.split(sep)] for a one-character separator *)
Definition split_on (sep : ascii) (s : string) : list string :=
  fields (Ascii.eqb sep) s.

(** [s.split()]: the maximal runs of non-whitespace *)
Definition split_ws (s : string) : list string :=
  List.filter nonempty (fields is_space s).

(** [sep in s] for a one-character [sep] *)
Fixpoint has_char (sep : ascii) (s : string) : bool :=
  match s with
  | EmptyString => false
  | String c s' => Ascii.eqb sep c || has_char sep s'
  end.

(** [s.startswith(p)] *)
Fixpoint startswith (p s : string) : bool :=
  match p, s with
  | EmptyString, _ => true
  | String a p', String b s' => Ascii.eqb a b && startswith p' s'
  | String _ _, EmptyString => false
  end.

(** [sub in s] *)
Fixpoint contains (sub s : string) : bool :=
  startswith sub s ||
  match s with
  | EmptyString => false
  | String _ s' => contains sub s'
  end.

(** [s.count(sub)] for a non-empty [sub]: occurrences counted from the left
    without overlap.  [skip] is the number of characters still covered by the
    occurrence just counted. *)
Fixpoint count_from (sub : string) (skip : nat) (s : string) : nat :=
  match s with
  | EmptyString => 0%nat
  | String _ s' =>
      match skip with
      | S k => count_from sub k s'
      | O => if startswith sub s
             then S (count_from sub (String.length sub - 1) s')
             else count_from sub 0 s'
      end
  end.

Definition count (sub s : string) : nat := count_from sub 0 s.

Definition lower_char (c : ascii) : ascii :=
  let n := nat_of_ascii c in
  if ((65 <=? n) && (n <=? 90))%nat then ascii_of_nat (n + 32) else c.

Definition upper_char (c : ascii) : ascii :=
  let n := nat_of_ascii c in
  if ((97 <=? n) && (n <=? 122))%nat then ascii_of_nat (n - 32) else c.

Definition is_alpha (c : ascii) : bool :=
  let n := nat_of_ascii c in
  (((65 <=? n) && (n <=? 90)) || ((97 <=? n) && (n <=? 122)))%nat.

(** [s.lower()] *)
Fixpoint lower (s : string) : string :=
  match s with
  | EmptyString => EmptyString
  | String c s' => String (lower_char c) (lower s')
  end.

(** [s.title()]: the first letter of every run of letters in upper case, the
    others in lower case. *)
Fixpoint title_from (in_word : bool) (s : string) : string :=
  match s with
  | EmptyString => EmptyString
  | String c s' =>
      if is_alpha c
      then String (if in_word then lower_char c else upper_char c) (title_from true s')
      else String c (title_from false s')
  end.

Definition title (s : string) : string := title_from false s.

(** [s.rsplit(sep, 1)[0]]: what stands before the last [sep], all of [s] when
    there is none. *)
Fixpoint before_last (sep : ascii) (s : string) : option string :=
  match s with
  | EmptyString => None
  | String c s' =>
      match before_last sep s' with
      | Some r => Some (String c r)
      | None => if Ascii.eqb c sep then Some EmptyString else None
      end
  end.

Definition rsplit1_head (sep : ascii) (s : string) : string :=
  match before_last sep s with
  | Some r => r
  | None => s
  end.

(** [s[:n]] and [s[n:]] *)
Definition take_str (n : nat) (s : string) : string := String.substring 0 n s.

Fixpoint drop_str (n : nat) (s : string) : string :=
  match n, s with
  | O, _ => s
  | S k, String _ s' => drop_str k s'
  | S _, EmptyString => EmptyString
  end.

(** [sep.join(l)] *)
Fixpoint join (sep : string) (l : list string) : string :=
  match l with
  | [] => EmptyString
  | [x] => x
  | x :: rest => x ++ sep ++ join sep rest
  end.

(** [l[-n:]] for [n > 0] *)
Definition last_n {A} (n : nat) (l : list A) : list A :=
  List.skipn (List.length l - n) l.

(** The digits of [int(s)]: one or more digits, single underscores allowed
    between two digits. *)
Fixpoint int_digits (acc : Z) (after_digit : bool) (s : string) : option Z :=
  match s with
  | EmptyString => if after_digit then Some acc else None
  | String c s' =>
      if is_digit c then int_digits (10 * acc + digit_val c) true s'
      else if Ascii.eqb c "_" && after_digit then int_digits acc false s'
      else None
  end.

(** [int(s)] for a [str]: surrounding whitespace, an optional sign, decimal
    digits; [ValueError] otherwise. *)
Definition py_int (s : string) : result Z :=
  match strip s with
  | EmptyString => Raise ValueError
  | String c d =>
      if Ascii.eqb c "+" then of_option (int_digits 0 false d) ValueError
      else if Ascii.eqb c "-" then of_option (option_map Z.opp (int_digits 0 false d)) ValueError
      else of_option (int_digits 0 false (String c d)) ValueError
  end.

(** ** Python values *)

#[warnings="-register-all"]
Inductive pyval : Type :=
| PNone
| PBool (b : bool)
| PInt (z : Z)
| PFloat (q : Q)
| PStr (s : string)
| PList (l : list pyval)
| PDict (d : list (string * pyval)).

(** A [dict] with string keys, in insertion order. *)
Abbreviation pydict := (list (string * pyval)).

(** [d.get(k)] ([None] of Rocq for a missing key) *)
Fixpoint dict_get {V} (k : string) (d : list (string * V)) : option V :=
  match d with
  | [] => None
  | (k', v) :: rest => if String.eqb k k' then Some v else dict_get k rest
  end.

(** [d.get(k, dflt)] *)
Definition dict_get_default {V} (k : string) (dflt : V) (d : list (string * V)) : V :=
  match dict_get k d with
  | Some v => v
  | None => dflt
  end.

(** [d[k] = v]: in place when the key is there, at the end otherwise *)
Fixpoint dict_set {V} (k : string) (v : V) (d : list (string * V)) : list (string * V) :=
  match d with
  | [] => [(k, v)]
  | (k', v') :: rest =>
      if String.eqb k k' then (k, v) :: rest else (k', v') :: dict_set k v rest
  end.

(** [bool(v)] *)
Definition truthy (v : pyval) : bool :=
  match v with
  | PNone => false
  | PBool b => b
  | PInt z => negb (z =? 0)
  | PFloat q => negb (Qeq_bool q 0)
  | PStr s => nonempty s
  | PList l => match l with [] => false | _ => true end
  | PDict d => match d with [] => false | _ => true end
  end.

(** [a or b] *)
Definition py_or (a b : pyval) : pyval := if truthy a then a else b.

(** ** Zodiac resolver ([fortune_engine.analyze_zodiac]) *)

Definition UNKNOWN : string * string := ("Unknown", "Void").

(** The table [signs]: ((m1, d1, m2, d2), sign, element). *)
Definition signs : list ((Z * Z * Z * Z) * string * string) :=
  [ ((1, 20, 2, 18), "Aquarius", "Air");
    ((2, 19, 3, 20), "Pisces", "Water");
    ((3, 21, 4, 19), "Aries", "Fire");
    ((4, 20, 5, 20), "Taurus", "Earth");
    ((5, 21, 6, 20), "Gemini", "Air");
    ((6, 21, 7, 22), "Cancer", "Water");
    ((7, 23, 8, 22), "Leo", "Fire");
    ((8, 23, 9, 22), "Virgo", "Earth");
    ((9, 23, 10, 22), "Libra", "Air");
    ((10, 23, 11, 21), "Scorpio", "Water");
    ((11, 22, 12, 21), "Sagittarius", "Fire");
    ((12, 22, 1, 19), "Capricorn", "Earth") ].

(** The loop over the table: the first row that matches. *)
Fixpoint find_sign (month day : Z)
    (rows : list ((Z * Z * Z * Z) * string * string)) : string * string :=
  match rows with
  | [] => UNKNOWN
  | ((m1, d1, m2, d2), sign, element) :: rest =>
      if ((month =? m1) && (day >=? d1)) || ((month =? m2) && (day <=? d2))
      then (sign, element)
      else find_sign month day rest
  end.

(** The body of the [try]: [None] for fewer than three fields. *)
Definition parse_month_day (birthdate : pyval) : result (option (Z * Z)) :=
  match birthdate with
  | PStr s =>
      let parts := split_on "-" s in
      if (List.length parts <? 3)%nat then Ok None
      else (month <- py_int (nth 1 parts EmptyString) ;;
            day <- py_int (nth 2 parts EmptyString) ;;
            Ok (Some (month, day)))%result
  | _ => Raise AttributeError (* no [split] on this value *)
  end.

Definition analyze_zodiac (birthdate : pyval) : string * string :=
  match parse_month_day birthdate with
  | Raise _ => UNKNOWN
  | Ok None => UNKNOWN
  | Ok (Some (month, day)) => find_sign month day signs
  end.

(** ** Zodiac resolver of [astrology.py] *)

Module Astrology.

  (** [ZODIAC_SIGNS]: (sign, start (month, day), end (month, day)). *)
Definition ZODIAC_SIGNS : list (string * (Z * Z) * (Z * Z)) :=
    [ ("Capricorn", (12, 22), (1, 19));
      ("Aquarius", (1, 20), (2, 18));
      ("Pisces", (2, 19), (3, 20));
      ("Aries", (3, 21), (4, 19));
      ("Taurus", (4, 20), (5, 20));
      ("Gemini", (5, 21), (6, 20));
      ("Cancer", (6, 21), (7, 22));
      ("Leo", (7, 23), (8, 22));
      ("Virgo", (8, 23), (9, 22));
      ("Libra", (9, 23), (10, 22));
      ("Scorpio", (10, 23), (11, 21));
      ("Sagittarius", (11, 22), (12, 21)) ].

Definition ELEMENTS : list (string * list string) :=
    [ ("Fire", ["Aries"; "Leo"; "Sagittarius"]);
      ("Earth", ["Taurus"; "Virgo"; "Capricorn"]);
      ("Air", ["Gemini"; "Libra"; "Aquarius"]);
      ("Water", ["Cancer"; "Scorpio"; "Pisces"]) ].

Fixpoint element_in (sign : string) (table : list (string * list string)) : string :=
    match table with
    | [] => "Void"
    | (elem, members) :: rest =>
        if existsb (String.eqb sign) members then elem else element_in sign rest
    end.

Definition get_element (sign : string) : string := element_in sign ELEMENTS.

Definition is_leap (y : Z) : bool :=
    (y mod 4 =? 0) && (negb (y mod 100 =? 0) || (y mod 400 =? 0)).

Definition days_in_month (y m : Z) : Z :=
    if m =? 2 then (if is_leap y then 29 else 28)
    else if (m =? 4) || (m =? 6) || (m =? 9) || (m =? 11) then 30
    else 31.

  (** The month directive [%m]: [1[0-2]|0[1-9]|[1-9]]; the value and what
      is left of the input. *)
Definition month_field (s : string) : option (Z * string) :=
    match s with
    | String a (String b r) =>
        if Ascii.eqb a "1" && is_digit b && (digit_val b <=? 2) then Some (10 + digit_val b, r)
        else if Ascii.eqb a "0" && is_digit b && (1 <=? digit_val b) then Some (digit_val b, r)
        else if is_digit a && (1 <=? digit_val a) then Some (digit_val a, String b r)
        else None
    | String a EmptyString =>
        if is_digit a && (1 <=? digit_val a) then Some (digit_val a, EmptyString) else None
    | EmptyString => None
    end.

  (** The day directive [%d]: [3[01]|[12]\d|0[1-9]|[1-9]| [1-9]]. *)
Definition day_field (s : string) : option (Z * string) :=
    match s with
    | String a (String b r) =>
        if Ascii.eqb a "3" && is_digit b && (digit_val b <=? 1) then Some (30 + digit_val b, r)
        else if is_digit a && (1 <=? digit_val a) && (digit_val a <=? 2) && is_digit b
             then Some (10 * digit_val a + digit_val b, r)
        else if Ascii.eqb a "0" && is_digit b && (1 <=? digit_val b) then Some (digit_val b, r)
        else if is_digit a && (1 <=? digit_val a) then Some (digit_val a, String b r)
        else if Ascii.eqb a " " && is_digit b && (1 <=? digit_val b) then Some (digit_val b, r)
        else None
    | String a EmptyString =>
        if is_digit a && (1 <=? digit_val a) then Some (digit_val a, EmptyString) else None
    | EmptyString => None
    end.

  (** [datetime.strptime(s, "%Y-%m-%d")]: four digits, the month, the day,
      nothing left over, and a date of the calendar. *)
Definition strptime (s : string) : result (Z * Z * Z) :=
    match s with
    | String y1 (String y2 (String y3 (String y4 (String c1 r1)))) =>
        if is_digit y1 && is_digit y2 && is_digit y3 && is_digit y4 && Ascii.eqb c1 "-" then
          let year := 1000 * digit_val y1 + 100 * digit_val y2
                      + 10 * digit_val y3 + digit_val y4 in
          match month_field r1 with
          | Some (month, String c2 r2) =>
              if Ascii.eqb c2 "-" then
                match day_field r2 with
                | Some (day, EmptyString) =>
                    if (1 <=? year) && (day <=? days_in_month year month)
                    then Ok (year, month, day)
                    else Raise ValueError
                | _ => Raise ValueError
                end
              else Raise ValueError
          | _ => Raise ValueError
          end
        else Raise ValueError
    | _ => Raise ValueError
    end.

Fixpoint find_sign (month day : Z)
      (rows : list (string * (Z * Z) * (Z * Z))) : string * string :=
    match rows with
    | [] => UNKNOWN
    | (sign, (m1, d1), (m2, d2)) :: rest =>
        if ((month =? m1) && (day >=? d1)) || ((month =? m2) && (day <=? d2))
        then (sign, get_element sign)
        else find_sign month day rest
    end.

Definition analyze_zodiac (birthdate_str : pyval) : string * string :=
    let parsed :=
      match birthdate_str with
      | PStr s => strptime s
      | _ => Raise TypeError
      end in
    match parsed with
    | Ok (_, month, day) => find_sign month day ZODIAC_SIGNS
    | Raise _ => UNKNOWN
    end.

End Astrology.

(** A date string in the form [YYYY-MM-DD] that names a day of the calendar:
    four digits, two digits, two digits, year at least 1, month 1..12, day
    within the month. *)
Definition is_iso_date (s : string) : bool :=
  match s with
  | String y1 (String y2 (String y3 (String y4 (String c1
      (String m1 (String m2 (String c2 (String d1 (String d2 EmptyString))))))))) =>
      let year := 1000 * digit_val y1 + 100 * digit_val y2 + 10 * digit_val y3 + digit_val y4 in
      let month := 10 * digit_val m1 + digit_val m2 in
      let day := 10 * digit_val d1 + digit_val d2 in
      is_digit y1 && is_digit y2 && is_digit y3 && is_digit y4
      && Ascii.eqb c1 "-" && is_digit m1 && is_digit m2
      && Ascii.eqb c2 "-" && is_digit d1 && is_digit d2
      && (1 <=? year) && (1 <=? month) && (month <=? 12)
      && (1 <=? day) && (day <=? Astrology.days_in_month year month)
  | _ => false
  end.

(** The twelve sign names of the data model; the sign-to-element table is
    [Astrology.get_element]. *)
Definition SIGN_NAMES : list string :=
  List.map (fun row => fst (fst row)) Astrology.ZODIAC_SIGNS.

(** A resolved sign: one of the twelve names, with the element the table
    gives for it. *)
Definition well_formed_zodiac (r : string * string) : Prop :=
  In (fst r) SIGN_NAMES /\ snd r = Astrology.get_element (fst r).

(** ** Personality signature *)

Definition Q_4_2 : Q := 42 # 10.
Definition Q_2_6 : Q := 26 # 10.

Definition Qlt_bool (a b : Q) : bool := negb (Qle_bool b a).

(** [sum(vals)] *)
Definition qsum (vals : list Q) : Q := fold_left Qplus vals 0%Q.

Definition average (vals : list Q) : Q :=
  (qsum vals / inject_Z (Z.of_nat (List.length vals)))%Q.

Definition tone_of_average (avg : Q) : string :=
  if Qle_bool Q_4_2 avg then "bright"
  else if Qle_bool Q_2_6 avg then "neutral"
  else "dark".

(** [max(keys, key=f)]: the running best is replaced only by a strictly
    greater key value, so the first maximal element wins. *)
Fixpoint max_by_from {A} (f : A -> Q) (best : A) (rest : list A) : A :=
  match rest with
  | [] => best
  | x :: rest' => if Qlt_bool (f best) (f x) then max_by_from f x rest'
                  else max_by_from f best rest'
  end.

Definition max_by {A} (f : A -> Q) (l : list A) : result A :=
  match l with
  | [] => Raise ValueError
  | x :: rest => Ok (max_by_from f x rest)
  end.

(** The largest [int] that still converts to a [float]: the conversion
    overflows from 2^1024 - 2^970 on. *)
Definition FLOAT_INT_LIMIT : Z := 2 ^ 1024 - 2 ^ 970.

Section Signature.

  (** [float(s)] for a [str] ([None] for [ValueError]); the grammar of float
      literals is the interpreter's. *)
Variable float_of_string : string -> option Q.

  (** [float(v)] *)
Definition to_float (v : pyval) : result Q :=
    match v with
    | PBool b => Ok (if b then 1 else 0)%Q
    | PInt z => if Z.abs z <? FLOAT_INT_LIMIT then Ok (inject_Z z) else Raise OverflowError
    | PFloat q => Ok q
    | PStr s => of_option (float_of_string s) ValueError
    | PNone | PList _ | PDict _ => Raise TypeError
    end.



(** The loop over [profile.items()]: the state is ([vals], [numeric_map]). *)
Definition collect_step (acc : list Q * list (string * Q)) (kv : string * pyval)
      : list Q * list (string * Q) :=
    let '(vals, numeric_map) := acc in
    let '(k, v) := kv in
    match to_float v with
    | Ok fv => ((vals ++ [fv])%list, dict_set k fv numeric_map)
    | Raise _ => (vals, numeric_map)
    end.

Definition collect_numeric (d : pydict) : list Q * list (string * Q) :=
    fold_left collect_step d ([], []).

Definition compute_personality_signature (profile : pyval) : string * string :=
    match profile with
    | PDict ((_ :: _) as d) =>
        let '(vals, numeric_map) := collect_numeric d in
        match vals with
        | [] => ("neutral", "unknown")
        | _ :: _ =>
            let avg := average vals in
            let tone := tone_of_average avg in
            let dominant :=
              match max_by (fun k => dict_get_default k 0%Q numeric_map)
                           (List.map fst numeric_map) with
              | Ok k => k
              | Raise _ => match d with (k0, _) :: _ => k0 | [] => "unknown" end
              end in
            (tone, dominant)
        end
    | _ => ("neutral", "unknown")
    end.


End Signature.

(** The order of the tone buckets: dark < neutral < bright. *)
Definition tone_rank (tone_ : string) : nat :=
  if String.eqb tone_ "bright" then 2
  else if String.eqb tone_ "neutral" then 1
  else 0.

(** [temporal_tone_adjust], as a function of the tone and the local hour. *)
Definition temporal_tone_adjust_at (h : Z) (tone : string) : string :=
  if ((22 <=? h) || (h <=? 5)) && String.eqb tone "bright" then "neutral"
  else if ((22 <=? h) || (h <=? 5)) && String.eqb tone "neutral" then "dark"
  else if (6 <=? h) && (h <=? 10) && String.eqb tone "dark" then "neutral"
  else tone.

(** [astrology_hint] of the engine *)
Definition astrology_hint (element : string) : string :=
  dict_get_default element ""
    [ ("Fire", "your passion lights hidden crossroads.");
      ("Water", "your intuition echoes in quiet pools.");
      ("Air", "your thoughts drift toward new horizons.");
      ("Earth", "your steps root change into practice.");
      ("Void", "the cosmos watches without shape.") ].

(** ** Vocabulary *)

Definition VOCAB_themes : list string :=
  [ "reflection"; "destiny"; "memory"; "light"; "shadow"; "echo"; "flux"; "grace";
    "illusion"; "time"; "horizon"; "truth"; "dream"; "origin"; "stillness"; "threshold";
    "tide"; "constellation"; "pulse"; "garden" ].

Definition VOCAB_adjectives : list string :=
  [ "celestial"; "velvet"; "haunting"; "luminous"; "ashen"; "resonant";
    "ancient"; "radiant"; "forgotten"; "opalescent"; "gilded"; "nocturnal";
    "transcendent"; "serpentine"; "quiet" ].

Definition VOCAB_tones : list (string * list string) :=
  [ ("bright",
      [ "A golden light crowns your choices today.";
        "The mirror smiles upon this turning of the page.";
        "New paths unfold just beyond your steady step." ]);
    ("neutral",
      [ "Balance lingers at the glass; take another breath.";
        "A quiet clarity ripples beneath your surface.";
        "Consider the space between intent and action." ]);
    ("dark",
      [ "Shadows stir where the mirror does not reach.";
        "A hush warns: not all reflections are truth.";
        "Tread with curiosity and measured caution tonight." ]) ].

Definition VOCAB_omens : list string :=
  [ "a bird's wing caught in the current of morning";
    "the scent of rain on ancient stone";
    "a laugh from a stranger who knows your secret";
    "a folded note you've not yet found";
    "a glint that isn't yours" ].

(** ** Theme classifier: the deterministic part *)

(** The loop [counts[t] = text_low.count(t)] over the themes. *)
Definition theme_counts (text : string) : list (string * nat) :=
  let text_low := lower text in
  fold_left (fun counts t => dict_set t (count t text_low) counts) VOCAB_themes [].

(** [sorted(l, key=..., reverse=True)]: a stable sort, larger keys first;
    elements with equal keys keep the order they had. *)
Fixpoint insert_desc {A} (key : A -> nat) (x : A) (l : list A) : list A :=
  match l with
  | [] => [x]
  | y :: rest => if (key x <? key y)%nat then y :: insert_desc key x rest
                 else x :: y :: rest
  end.

Fixpoint sorted_desc {A} (key : A -> nat) (l : list A) : list A :=
  match l with
  | [] => []
  | x :: rest => insert_desc key x (sorted_desc key rest)
  end.

(** [top[0][0]] when [top] is non-empty and [top[0][1] > 0]. *)
Definition top_theme (text : string) : option string :=
  match sorted_desc snd (theme_counts text) with
  | (t, n) :: _ => if (0 <? n)%nat then Some t else None
  | [] => None
  end.

(** ** Generated-text cleaner *)

(** [Counter(words)]: each word with its number of occurrences, in the order
    of first occurrence. *)
Definition counter (words : list string) : list (string * nat) :=
  fold_left (fun c w => dict_set w (S (dict_get_default w 0%nat c)) c) words [].

(** [max(word_counts.values()) if word_counts else 0] *)
Definition most_common_count (words : list string) : nat :=
  fold_left Nat.max (List.map snd (counter words)) 0%nat.

(** [len(words) > 5] and [most_common_count > len(words) * 0.6].  The product
    with 0.6 is compared exactly: for an integer [c] and a word count [n]
    below 2^50, [c > n * 0.6] in binary64 holds exactly when [5 c > 3 n]. *)
Definition repetitive (words : list string) : bool :=
  ((5 <? List.length words) &&
   (3 * List.length words <? 5 * most_common_count words))%nat.

Definition char_str (c : ascii) : string := String c EmptyString.

(** The body of [if sep in t:] for one separator. *)
Definition first_sentences (sep : ascii) (t : string) : result string :=
  let parts := List.map strip (List.filter (fun p => nonempty (strip p)) (split_on sep t)) in
  match parts with
  | p0 :: p1 :: _ => Ok (strip (p0 ++ char_str sep ++ " " ++ p1 ++ char_str sep))
  | [p0] => Ok (strip (p0 ++ char_str sep))
  | [] => Raise IndexError (* parts[0] of an empty list *)
  end.

(** [t if len(t) <= 400 else (t[:400].rsplit(" ", 1)[0] + "...")] *)
Definition length_cap (t : string) : string :=
  if (String.length t <=? 400)%nat then t
  else rsplit1_head " " (take_str 400 t) ++ "...".

Definition clean_generated_text (text : string) : result string :=
  let t := strip text in
  if negb (nonempty t) then Ok t
  else if repetitive (split_ws t) then Ok EmptyString
  else if has_char "." t then first_sentences "." t
  else if has_char "?" t then first_sentences "?" t
  else if has_char "!" t then first_sentences "!" t
  else Ok (length_cap t).

(** The validator [_is_valid] local to [generate_fortune]. *)
Definition bad_markers : list string :=
  [ "unknown (element: void)"; "fortune: unknown (element: void)"; "the mirror is silent" ].

Definition is_valid (text : string) : bool :=
  if negb (nonempty text) then false
  else
    let t := strip text in
    if (String.length t <? 10)%nat then false
    else if existsb (fun b => contains b (lower t)) bad_markers then false
    else negb (repetitive (split_ws t)).

(** ** The memory store and the world around the engine *)

Record HistoryEntry : Type := mkEntry {
  timestamp : string;
  fortune : string;
  zodiac : string;
  tone : string;
  theme : string
}.

(** The document kept in [mirror_memory.json]. *)
Abbreviation memory := (gmap string (list HistoryEntry)).

(** What the engine can change: the memory file ([None] when it is missing or
    unreadable), the number of completed writes of it, and the number of
    readings taken so far from the clock, the random generator, the file
    system and the language model. *)
Record state : Type := mkState {
  memory_file : option memory;
  writes : nat;
  tick : nat
}.

(** A [datetime]: microseconds since 0001-01-01T00:00:00, and the UTC offset
    when it has one. *)
Record datetime : Type := mkDatetime {
  micros : Z;
  tzoffset : option Z
}.

Definition US_PER_HOUR : Z := 3600000000.
Definition US_PER_DAY : Z := 86400000000.
(** [datetime.max]: the last microsecond of 9999-12-31. *)
Definition MAX_MICROS : Z := 3652059 * US_PER_DAY - 1.
(** The range of [timedelta(days=...)]. *)
Definition MAX_DELTA_DAYS : Z := 999999999.

Definition hour_of (t : Z) : Z := (t / US_PER_HOUR) mod 24.

(** [now - timedelta(days=days)] *)
Definition minus_days (now_us days : Z) : result Z :=
  if MAX_DELTA_DAYS <? Z.abs days then Raise OverflowError
  else
    let c := now_us - days * US_PER_DAY in
    if (0 <=? c) && (c <=? MAX_MICROS) then Ok c else Raise OverflowError.

(** [d >= cutoff] for a naive [cutoff]: an aware [d] cannot be compared. *)
Definition datetime_ge (d : datetime) (cutoff : Z) : result bool :=
  match tzoffset d with
  | None => Ok (cutoff <=? micros d)
  | Some _ => Raise TypeError
  end.

(** Computations that may raise and change the state. *)
Definition M (A : Type) : Type := state -> result A * state.

Definition ret {A} (a : A) : M A := fun st => (Ok a, st).

Definition raise {A} (e : exn) : M A := fun st => (Raise e, st).

Definition bind {A B} (m : M A) (k : A -> M B) : M B :=
  fun st =>
    match m st with
    | (Ok a, st') => k a st'
    | (Raise e, st') => (Raise e, st')
    end.

Definition lift {A} (r : result A) : M A := fun st => (r, st).

(** [try: m except Exception: h]; what [m] did to the state stays done. *)
Definition catch {A} (m : M A) (h : exn -> M A) : M A :=
  fun st =>
    match m st with
    | (Ok a, st') => (Ok a, st')
    | (Raise e, st') => h e st'
    end.

Declare Scope M_scope.
Delimit Scope M_scope with M.
Notation "x <-- m ;; k" := (bind m (fun x => k))
  (at level 100, m at next level, right associativity) : M_scope.
Notation "m ;;; k" := (bind m (fun _ => k))
  (at level 100, right associativity) : M_scope.

(** The next reading number. *)
Definition fresh : M nat :=
  fun st => (Ok (tick st), mkState (memory_file st) (writes st) (S (tick st))).

(** [KEEP_HISTORY] *)
Definition KEEP_HISTORY : nat := 12.

Definition PLACEHOLDER : string :=
  "The mirror is quiet right now. Try again in a little while.".

Definition NL : string := String (ascii_of_nat 10) EmptyString.

(** The two decorations of the fortune header, as the bytes of the source. *)
Definition MIRROR_GLYPH : string :=
  string_of_list_ascii (List.map ascii_of_nat [195; 176; 197; 184; 194; 170; 197; 190]%nat).
Definition LONG_DASH : string :=
  string_of_list_ascii (List.map ascii_of_nat [195; 162; 226; 130; 172; 226; 128; 157]%nat).

Section Engine.

  (** *** The world the engine runs in *)

  (** The [n]-th reading of the clock, in microseconds ([datetime.now()] is
      naive), of the random generator, and of the file system (whether the
      write of the memory file fails). *)
Variable clock : nat -> Z.
Variable dice : nat -> nat.
Variable write_fails : nat -> bool.

  (** The generative backend: whether the [transformers] package imports,
      whether loading the weights succeeds, and what tokenising, generating
      and decoding give for a prompt at the [n]-th reading. *)
Variable FORCE_RULE_BASED : bool.  (* [True] in the source as it stands *)
Variable transformers_imports : bool.
Variable model_loads : bool.
Variable language_model : nat -> string -> result string.

  (** Functions of the interpreter and of its library that are not written
      out: [str(v)] for a value that is not a [str], [float(s)],
      [json.dumps], [datetime.isoformat], [strftime("%B %d, %Y")] and
      [datetime.fromisoformat]. *)
Variable py_format : pyval -> string.
Variable float_of_string : string -> option Q.
Variable json_dumps : pydict -> result string.
Variable isoformat : Z -> string.
Variable strftime_long : Z -> string.
Variable fromisoformat : string -> option datetime.

Definition TRANSFORMERS_AVAILABLE : bool :=
    transformers_imports && (true && negb FORCE_RULE_BASED).

  (** [f"{v}"] *)
Definition fmt (v : pyval) : string :=
    match v with
    | PStr s => s
    | _ => py_format v
    end.

Definition now : M Z := (n <-- fresh ;; ret (clock n))%M.

  (** [random.choice(pool)] *)
Definition choice {A} (pool : list A) : M A :=
    (n <-- fresh ;;
     lift (of_option (nth_error pool (dice n mod List.length pool)%nat) IndexError))%M.

  (** [load_memory]: a missing or unreadable file is the empty mapping. *)
Definition load_memory : M memory :=
    fun st => (Ok (default ∅ (memory_file st)), st).

  (** [save_memory]: write to a temporary file and rename it over the memory
      file; [False] and no change when that fails. *)
Definition save_memory (mem : memory) : M bool :=
    (n <-- fresh ;;
     if write_fails n then ret false
     else fun st => (Ok true, mkState (Some mem) (S (writes st)) (tick st)))%M.

  (** [mem.get(name, [])]: the keys of the loaded mapping are strings; a list
      or a dict cannot be hashed, any other value equals no key. *)
Definition memory_get (mem : memory) (name : pyval) : result (list HistoryEntry) :=
    match name with
    | PStr s => Ok (default [] (mem !! s))
    | PList _ | PDict _ => Raise TypeError
    | _ => Ok []
    end.

  (** The key under which [json.dump] writes the entry of [name]. *)
Definition json_key (name : pyval) : string :=
    match name with
    | PStr s => s
    | PNone => "null"
    | PBool true => "true"
    | PBool false => "false"
    | _ => py_format name
    end.

  (** *** Theme classifier *)

Definition guess_theme_from_text (text : string) : M string :=
    match top_theme text with
    | Some t => ret t
    | None => choice VOCAB_themes
    end.

  (** *** Memory: append *)

  (** [theme] is [None] of Rocq for Python's [None]. *)
Definition append_memory_entry (name : pyval) (fortune_text zodiac_ tone_ : string)
      (theme_ : option string) : M unit :=
    catch
      (mem <-- load_memory ;;
       history <-- lift (memory_get mem name) ;;
       t <-- now ;;
       th <-- match theme_ with
              | Some th => if nonempty th then ret th else guess_theme_from_text fortune_text
              | None => guess_theme_from_text fortune_text
              end ;;
       let entry := mkEntry (isoformat t) fortune_text zodiac_ tone_ th in
       let history' := (history ++ [entry])%list in
       save_memory (<[json_key name := last_n KEEP_HISTORY history']> mem) ;;;
       ret tt)%M
      (fun _ => ret tt).

(** A run of calls of [append_memory_entry], one after the other. *)
Fixpoint append_all (calls : list (pyval * string * string * string * option string))
    (st : state) : state :=
  match calls with
  | [] => st
  | (name, fortune_text, zodiac_, tone_, theme_) :: rest =>
      append_all rest (snd (append_memory_entry name fortune_text zodiac_ tone_ theme_ st))
  end.

Definition get_user_history (name : pyval) : M (list HistoryEntry) :=
    (mem <-- load_memory ;; lift (memory_get mem name))%M.

  (** *** Memory: purge *)

  (** [datetime.fromisoformat(h.get("timestamp")) >= cutoff] *)
Definition not_older (cutoff : Z) (h : HistoryEntry) : result bool :=
    (d <- of_option (fromisoformat (timestamp h)) ValueError ;;
     datetime_ge d cutoff)%result.

  (** The list comprehension [[h for h in hist if ... >= cutoff]]. *)
Fixpoint keep_recent (cutoff : Z) (hist : list HistoryEntry) : result (list HistoryEntry) :=
    match hist with
    | [] => Ok []
    | h :: rest =>
        (b <- not_older cutoff h ;;
         rest' <- keep_recent cutoff rest ;;
         Ok (if b : bool then h :: rest' else rest'))%result
    end.

  (** The loop [for name in list(mem.keys())]. *)
Fixpoint purge_loop (cutoff : Z) (names : list string) (mem : memory) (removed : nat)
      : result (memory * nat) :=
    match names with
    | [] => Ok (mem, removed)
    | name :: rest =>
        let hist := default [] (mem !! name) in
        (newhist <- keep_recent cutoff hist ;;
         let removed' := (removed + (List.length hist - List.length newhist))%nat in
         let mem' := match newhist with
                     | [] => delete name mem
                     | _ :: _ => <[name := newhist]> mem
                     end in
         purge_loop cutoff rest mem' removed')%result
    end.

Definition purge_memory_older_than (days : Z) : M nat :=
    catch
      (mem <-- load_memory ;;
       t <-- now ;;
       cutoff <-- lift (minus_days t days) ;;
       res <-- lift (purge_loop cutoff (List.map fst (map_to_list mem)) mem 0%nat) ;;
       let '(mem', removed) := res in
       save_memory mem' ;;;
       ret removed)%M
      (fun _ => ret 0%nat).

  (** *** Rule-based composer *)

Definition temporal_tone_adjust (tone_ : string) : M string :=
    (t <-- now ;; ret (temporal_tone_adjust_at (hour_of t) tone_))%M.

Definition rule_based_fortune (name : pyval) (zodiac_ element tone_ dominant : string)
      (history : list HistoryEntry) : M string :=
    (theme_ <-- choice VOCAB_themes ;;
     adj <-- choice VOCAB_adjectives ;;
     omen <-- choice VOCAB_omens ;;
     tone' <-- temporal_tone_adjust tone_ ;;
     tone_line <-- choice (dict_get_default tone'
                             (dict_get_default "neutral" [] VOCAB_tones) VOCAB_tones) ;;
     let memory_hint :=
       match List.last (List.map Some history) None with
       | Some h => "The mirror remembers a past theme of '" ++ theme h ++ "'."
       | None => EmptyString
       end in
     let astro := astrology_hint element in
     t <-- now ;;
     let ts := strftime_long t in
     ret (MIRROR_GLYPH ++ " Mirror of " ++ title theme_ ++ " " ++ LONG_DASH ++ " " ++ ts
          ++ NL ++ NL
          ++ fmt name ++ ", the " ++ adj ++ " child of " ++ zodiac_ ++ ", " ++ tone_line ++ NL
          ++ "Your " ++ dominant ++ " stirs the current of " ++ theme_ ++ ", and " ++ astro ++ NL
          ++ "As " ++ omen ++ " passes, listen for the quiet next step." ++ NL ++ NL
          ++ memory_hint ++ NL
          ++ "May your reflection reveal what your eyes do not."))%M.

  (** *** Generative path *)

Definition init_model : bool :=
    if negb TRANSFORMERS_AVAILABLE then false else model_loads.

Definition json_snippet (d : pydict) : string :=
    match json_dumps d with
    | Ok s => if (240 <? String.length s)%nat
              then rsplit1_head "," (take_str 240 s) ++ "..."
              else s
    | Raise _ => "{}"
    end.

  (** [v.items()] *)
Definition items (v : pyval) : result pydict :=
    match v with
    | PDict d => Ok d
    | _ => Raise AttributeError
    end.

Definition generate_ml_fortune (user_profile : pydict) : M string :=
    if negb init_model then raise RuntimeError
    else
      (let name := dict_get_default "name" (PStr "Wanderer") user_profile in
       let birth := dict_get_default "birthdate" (PStr "1900-01-01") user_profile in
       let '(zodiac_, element) := analyze_zodiac birth in
       src <-- lift (items (py_or (dict_get_default "quiz" PNone user_profile)
                                    (PDict user_profile))) ;;
       let profile_clipped :=
         List.filter (fun kv => negb (String.eqb (fst kv) "name"
                                      || String.eqb (fst kv) "birthdate")) src in
       let '(tone0, dominant) :=
         compute_personality_signature float_of_string (PDict profile_clipped) in
       tone_ <-- temporal_tone_adjust tone0 ;;
       mem <-- load_memory ;;
       history <-- lift (memory_get mem name) ;;
       let history_text := join NL (List.map fortune (last_n 5 history)) in
       let prompt :=
         "You are an artistic poetic oracle. Write a gentle, original fortune for "
           ++ fmt name ++ "." ++ NL
         ++ "Keep it short (1-3 sentences). Use evocative language, and do not repeat past fortunes verbatim."
           ++ NL
         ++ "Zodiac: " ++ zodiac_ ++ " (element: " ++ element ++ "). Tone: " ++ tone_
           ++ ". Dominant trait: " ++ dominant ++ "." ++ NL
         ++ "Profile: " ++ json_snippet profile_clipped ++ NL
         ++ "Recent reflections:" ++ NL ++ history_text ++ NL
         ++ "Fortune:" in
       n <-- fresh ;;
       raw <-- lift (language_model n prompt) ;;
       let gen0 := if startswith prompt raw
                   then strip (drop_str (String.length prompt) raw)
                   else strip raw in
       gen <-- lift (clean_generated_text gen0) ;;
       if negb (nonempty gen) || (String.length (strip gen) <? 10)%nat
       then raise ValueError
       else
         (th <-- guess_theme_from_text gen ;;
          append_memory_entry name gen zodiac_ tone_ (Some th) ;;;
          ret gen))%M.

  (** *** The orchestrator *)

  (** The rule-based part of [generate_fortune]. *)
Definition rule_based_path (user_data : pydict) : M string :=
    (let name := dict_get_default "name" (PStr "Wanderer") user_data in
     let birth := dict_get_default "birthdate" (PStr "1900-01-01") user_data in
     let '(zodiac_, element) := analyze_zodiac birth in
     let profile_map := py_or (dict_get_default "quiz" PNone user_data) (PDict user_data) in
     let '(tone_, dominant) := compute_personality_signature float_of_string profile_map in
     mem <-- load_memory ;;
     history <-- lift (memory_get mem name) ;;
     rule <-- rule_based_fortune name zodiac_ element tone_ dominant history ;;
     if negb (nonempty rule) || (String.length (strip rule) <? 20)%nat
     then
       (append_memory_entry name PLACEHOLDER zodiac_ tone_ (Some "quiet") ;;;
        ret PLACEHOLDER)
     else
       (th <-- guess_theme_from_text rule ;;
        append_memory_entry name rule zodiac_ tone_ (Some th) ;;;
        ret rule))%M.

  (** The inner [try] around the generative attempt: the accepted text, or
      [None] when the attempt raised or its text was not valid. *)
Definition ml_attempt (user_data : pydict) : M (option string) :=
    catch
      (ml_gen <-- generate_ml_fortune user_data ;;
       if is_valid ml_gen then ret (Some (strip ml_gen)) else ret None)%M
      (fun _ => ret None).

  (** The body of the outer [try]. *)
Definition generate_fortune_body (user_data : pydict) : M string :=
    if TRANSFORMERS_AVAILABLE then
      (r <-- ml_attempt user_data ;;
       match r with
       | Some text => ret text
       | None => rule_based_path user_data
       end)%M
    else rule_based_path user_data.

Definition generate_fortune (user_data : pydict) : M string :=
    catch (generate_fortune_body user_data) (fun _ => ret PLACEHOLDER).

End Engine.

(* ================================================================== *)
(** * More of the program *)
(* ================================================================== *)

(** ** The hints of [astrology.py] *)

Module AstrologyHints.

Definition ASTROLOGY_HINTS : list (string * string) :=
  [ ("Fire", "You are passionate, energetic, and courageous.");
    ("Earth", "You are grounded, practical, and reliable.");
    ("Air", "You are intellectual, communicative, and curious.");
    ("Water", "You are intuitive, empathetic, and emotional.");
    ("Void", "Your star sign is undefined. Unique paths await you.") ].

(** [ASTROLOGY_HINTS.get(element, ASTROLOGY_HINTS["Void"])] *)
Definition astrology_hint (element : string) : string :=
  dict_get_default element
    (dict_get_default "Void" EmptyString ASTROLOGY_HINTS) ASTROLOGY_HINTS.

End AstrologyHints.

(** The five elements of the data model. *)
Definition ELEMENT_NAMES : list string := [ "Fire"; "Earth"; "Air"; "Water"; "Void" ].

(** ** The astrology route of [main.py] *)

(** [get_astrology]: the sign, the element and the hint sent back for a
    birthdate taken from the path. *)
Definition get_astrology (birthdate : string) : string * string * string :=
  let '(zodiac_, element) := Astrology.analyze_zodiac (PStr birthdate) in
  (zodiac_, element, AstrologyHints.astrology_hint element).

(** ** Further sample inputs *)

(** A language model that answers with one line of verse. *)
Definition poetic_model (n : nat) (prompt : string) : result string :=
  Ok "  A quiet tide carries your name toward morning light.  ".

(** ** Analytics: [summarize_user_history] *)

(** [max(counts.items(), key=lambda kv: kv[1])]: the first of the entries
    with the greatest count. *)
Fixpoint max_count_from (best : string * nat) (rest : list (string * nat)) : string * nat :=
  match rest with
  | [] => best
  | x :: rest' =>
      if (snd best <? snd x)%nat then max_count_from x rest' else max_count_from best rest'
  end.

(** [max(counts.items(), key=...)[0] if counts else None] *)
Definition most_common (counts : list (string * nat)) : option string :=
  match counts with
  | [] => None
  | x :: rest => Some (fst (max_count_from x rest))
  end.

(** The dict that [summarize_user_history] returns. *)
Record Summary : Type := mkSummary {
  summary_count : nat;
  most_common_tone : option string;
  most_common_theme : option string;
  recent : list HistoryEntry
}.

(** The loop over the history fills the two count dicts as [Counter] does:
    [counts[k] = counts.get(k, 0) + 1].  The entries are those of the data
    model, with every field present. *)
Definition summarize_user_history (name : pyval) : M Summary :=
  (mem <-- load_memory ;;
   history <-- lift (memory_get mem name) ;;
   match history with
   | [] => ret (mkSummary 0 None None [])
   | _ :: _ =>
       ret (mkSummary (List.length history)
              (most_common (counter (List.map tone history)))
              (most_common (counter (List.map theme history)))
              (List.rev (last_n 5 history)))
   end)%M.

(** ** Batch generation: [batch_generate_for_users] *)

Section Batch.

Variable clock : nat -> Z.
Variable dice : nat -> nat.
Variable write_fails : nat -> bool.
Variable FORCE_RULE_BASED : bool.
Variable transformers_imports : bool.
Variable model_loads : bool.
Variable language_model : nat -> string -> result string.
Variable py_format : pyval -> string.
Variable float_of_string : string -> option Q.
Variable json_dumps : pydict -> result string.
Variable isoformat : Z -> string.
Variable strftime_long : Z -> string.

(** [f"{e}"] for an exception *)
Variable exn_message : exn -> string.

(** The body of the loop for one user: the [try] with its handler.  A
    profile that is not a dict has no [get]: with [force_rule_based] the
    attribute error reaches the handler of the loop, otherwise it is caught
    inside [generate_fortune], which answers with its placeholder. *)
Definition batch_one (force_rule_based : bool) (name : string) (profile : pyval) : M string :=
  catch
    (if force_rule_based then
       (d <-- lift (items profile) ;;
        let '(zodiac_, elem) :=
          analyze_zodiac (dict_get_default "birthdate" (PStr "1900-01-01") d) in
        let '(tone_, dom) :=
          compute_personality_signature float_of_string
            (py_or (dict_get_default "quiz" PNone d) (PDict [])) in
        history <-- get_user_history (PStr name) ;;
        rule_based_fortune clock dice py_format strftime_long
          (PStr name) zodiac_ elem tone_ dom history)%M
     else
       match profile with
       | PDict d =>
           generate_fortune clock dice write_fails FORCE_RULE_BASED transformers_imports
             model_loads language_model py_format float_of_string json_dumps isoformat
             strftime_long d
       | _ => ret PLACEHOLDER
       end)
    (fun e => ret ("[error generating fortune: " ++ exn_message e ++ "]")).

(** The loop [for name, profile in user_profiles.items()]. *)
Fixpoint batch_loop (force_rule_based : bool) (profiles : list (string * pyval))
    (results : list (string * string)) : M (list (string * string)) :=
  match profiles with
  | [] => ret results
  | (name, profile) :: rest =>
      (f <-- batch_one force_rule_based name profile ;;
       batch_loop force_rule_based rest (dict_set name f results))%M
  end.

Definition batch_generate_for_users (user_profiles : list (string * pyval))
    (force_rule_based : bool) : M (list (string * string)) :=
  batch_loop force_rule_based user_profiles [].

End Batch.

(** ** The cleaning script ([scripts/clean_memory.py]) *)


(** ** The training record of [main.py] *)


(* ================================================================== *)
(** * Notions used in the statements *)
(* ================================================================== *)



(** No character of [s] satisfies [p]. *)
Fixpoint free_of (p : ascii -> bool) (s : string) : bool :=
  match s with
  | EmptyString => true
  | String c s' => negb (p c) && free_of p s'
  end.




(** The number of times [w] stands in [words]. *)
Definition occurrences (w : string) (words : list string) : nat :=
  List.length (List.filter (String.eqb w) words).

Definition count_step (c : list (string * nat)) (w : string) : list (string * nat) :=
  dict_set w (S (dict_get_default w 0%nat c)) c.

(** [m] returns and leaves the memory file alone: it only takes readings. *)
Definition reads_only {A} (m : M A) : Prop :=
  forall st, exists a k,
    m st = (Ok a, mkState (memory_file st) (writes st) (tick st + k)%nat).

Definition stored (st : state) : memory := default ∅ (memory_file st).

Definition history_of (st : state) (user : string) : list HistoryEntry :=
  default [] (stored st !! user).

(** Every stored history has at most [KEEP_HISTORY] entries. *)
Definition capped (st : state) : Prop :=
  forall user, (List.length (history_of st user) <= KEEP_HISTORY)%nat.

(** The entry stored for a call. *)
Definition entry_matches (c : pyval * string * string * string * option string)
    (e : HistoryEntry) : Prop :=
  let '(_, fortune_text, zodiac_, tone_, _) := c in
  fortune e = fortune_text /\ zodiac e = zodiac_ /\ tone e = tone_.


Section PurgeNotions.

Variable fromisoformat : string -> option datetime.


(** The timestamp is strictly older than the cutoff. *)
Definition older (cutoff : Z) (h : HistoryEntry) : bool :=
  match fromisoformat (timestamp h) with
  | Some d => micros d <? cutoff
  | None => false
  end.



End PurgeNotions.

(** The memory file is as it was, and has not been written. *)
Definition same_file (st st' : state) : Prop :=
  memory_file st' = memory_file st /\ writes st' = writes st.

(** [m] does not touch the memory file, whether it returns or raises. *)
Definition quiet {A} (m : M A) : Prop := forall st, same_file st (snd (m st)).




(** No blank at the right end, and not empty. *)
Definition tight_r (s : string) : Prop := nonempty s = true /\ rstrip s = s.

(** What the batch loop gives for one user: under the user's name, a
    composed fortune for a profile that is a dict and the error line for
    another value. *)
Definition batch_result (p : string * pyval) (r : string * string) : Prop :=
  fst r = fst p
  /\ match snd p with
     | PDict _ => startswith MIRROR_GLYPH (snd r) = true
     | _ => startswith "[error generating fortune: " (snd r) = true
     end.

(* ================================================================== *)
(** * Sample inputs *)
(* ================================================================== *)





Definition tied_text : string := "A dream of light; another Dream, more LIGHT, and time.".

Definition empty_state : state := mkState None 0 0.

Definition fifteen_calls : list (pyval * string * string * string * option string) :=
  List.map (fun f => (PStr "Ada", f, "Taurus", "neutral", Some "light"))
    [ "f01"; "f02"; "f03"; "f04"; "f05"; "f06"; "f07"; "f08";
      "f09"; "f10"; "f11"; "f12"; "f13"; "f14"; "f15" ].

(** A reader of the two timestamps of the sample store. *)
Definition sample_fromisoformat (s : string) : option datetime :=
  if String.eqb s "2020-01-01T00:00:00" then Some (mkDatetime 63713433600000000 None)
  else if String.eqb s "2024-06-01T12:00:00" then Some (mkDatetime 63852840000000000 None)
  else None.

Definition old_entry : HistoryEntry :=
  mkEntry "2020-01-01T00:00:00" "An old fortune." "Aries" "neutral" "light".

Definition new_entry : HistoryEntry :=
  mkEntry "2024-06-01T12:00:00" "A recent fortune." "Aries" "bright" "dream".

Definition bad_entry : HistoryEntry :=
  mkEntry "yesterday" "A fortune of unknown age." "Leo" "dark" "time".

Definition sample_store : memory :=
  <["Ada" := [old_entry; new_entry]]> (<["Bob" := [old_entry]]> ∅).

Definition sample_state : state := mkState (Some sample_store) 0 0.

(** Noon of 2024-06-02. *)
Definition sample_clock (n : nat) : Z := 63852926400000000.

Definition spoiled_state : state :=
  mkState (Some (<["Cy" := [old_entry; bad_entry]]> sample_store)) 3 7.

(** A world for the examples: noon of 2024-06-02, a generator that counts,
    and a language model that says the same thing every time. *)
Definition sample_dice (n : nat) : nat := n.

Definition sample_format (v : pyval) : string := "?".

Definition sample_float (s : string) : option Q := None.

Definition sample_dumps (d : pydict) : result string := Ok "{}".

Definition sample_isoformat (t : Z) : string := "2024-06-02T12:00:00".

Definition sample_strftime (t : Z) : string := "June 02, 2024".

Definition silent_model (n : nat) (prompt : string) : result string :=
  Ok "The mirror is silent tonight, dear one.".

Definition ada : pydict :=
  [ ("name", PStr "Ada"); ("birthdate", PStr "1990-04-21");
    ("quiz", PDict [ ("emotion", PInt 4); ("focus", PInt 3); ("intuition", PInt 5);
                     ("trust", PInt 2); ("reflection", PInt 4) ]) ].

(** A name that cannot be a key of the memory mapping. *)
Definition nameless : pydict := [ ("name", PList [PStr "Ada"]) ].

(* ================================================================== *)
(** * Part II: properties *)
(* ================================================================== *)

(** ** Characters and strings *)

Lemma digit_facts (c : ascii) :
  is_digit c = true ->
  is_space c = false /\ Ascii.eqb "-" c = false /\ Ascii.eqb c "-" = false
  /\ Ascii.eqb c "+" = false /\ Ascii.eqb c "_" = false
  /\ 0 <= digit_val c <= 9.
Proof.
  destruct c as [[] [] [] [] [] [] [] []]; intros H;
    try (vm_compute in H; discriminate H);
    repeat split; try reflexivity; vm_compute; discriminate.
Qed.

Lemma py_int_two_digits (a b : ascii) :
  is_digit a = true -> is_digit b = true ->
  py_int (String a (String b EmptyString)) = Ok (10 * digit_val a + digit_val b).
Proof.
  intros Ha Hb.
  destruct (digit_facts a Ha) as (Sa & _ & Da & Pa & Ua & Ra).
  destruct (digit_facts b Hb) as (Sb & _ & Db & Pb & Ub & Rb).
  unfold py_int, strip. simpl. rewrite Sa. simpl. rewrite Sb. simpl.
  rewrite Pa, Da. simpl. rewrite Ha, Hb. simpl.
  f_equal; lia.
Qed.

(** Distinct keys of a literal dict. *)
Ltac nodup_strings :=
  repeat (constructor; [simpl; intuition discriminate | ]); constructor.

(** ** Zodiac *)

Ltac split_ifs :=
  repeat match goal with
         | |- context [if ?b then _ else _] => destruct b eqn:?
         end.

Lemma find_sign_shape (month day : Z) :
  find_sign month day signs = UNKNOWN \/ well_formed_zodiac (find_sign month day signs).
Proof.
  unfold find_sign, signs. split_ifs;
    first [ left; reflexivity
          | right; split; [cbn; tauto | reflexivity] ].
Qed.

Lemma find_sign_month (month day : Z) :
  1 <= month <= 12 -> well_formed_zodiac (find_sign month day signs).
Proof.
  intros Hm.
  destruct (find_sign_shape month day) as [H | H]; [ | exact H].
  exfalso. revert H. unfold find_sign, signs.
  split_ifs; try discriminate; intros _.
  repeat match goal with
         | H : (_ || _) = false |- _ => apply orb_false_iff in H; destruct H
         | H : (_ && _) = false |- _ => apply andb_false_iff in H
         end.
  assert (Hc : month = 1 \/ month = 2 \/ month = 3 \/ month = 4 \/ month = 5 \/ month = 6
               \/ month = 7 \/ month = 8 \/ month = 9 \/ month = 10 \/ month = 11 \/ month = 12)
    by lia.
  lia.
Qed.

Lemma fields_keep (p : ascii -> bool) (c : ascii) (s : string) :
  p c = false ->
  fields p (String c s) =
  match fields p s with
  | f :: fs => String c f :: fs
  | [] => [String c EmptyString]
  end.
Proof. intros H. simpl. now rewrite H. Qed.

Lemma fields_cut (p : ascii -> bool) (c : ascii) (s : string) :
  p c = true -> fields p (String c s) = EmptyString :: fields p s.
Proof. intros H. simpl. now rewrite H. Qed.

Lemma fields_not_nil (p : ascii -> bool) (s : string) : fields p s <> [].
Proof.
  induction s as [ | c s IH]; simpl; [discriminate | ].
  destruct (p c); [discriminate | ].
  destruct (fields p s); discriminate.
Qed.





Lemma analyze_zodiac_shape (v : pyval) :
  analyze_zodiac v = UNKNOWN \/ well_formed_zodiac (analyze_zodiac v).
Proof.
  unfold analyze_zodiac.
  destruct (parse_month_day v) as [[[month day] | ] | e]; auto using find_sign_shape.
Qed.




(** The resolver of [astrology.py] does reject that string. *)
Lemma astrology_rejects_extra_field :
  Astrology.analyze_zodiac (PStr "1990-04-21-07") = UNKNOWN.
Proof. reflexivity. Qed.

(** ** Personality signature *)

Lemma dict_set_fresh {V} (k : string) (v : V) (d : list (string * V)) :
    ~ In k (List.map fst d) -> dict_set k v d = (d ++ [(k, v)])%list.
  Proof.
    induction d as [ | [k' v'] d IH]; simpl; intros H; [reflexivity | ].
    destruct (String.eqb_spec k k') as [-> | Hne]; [tauto | ].
    rewrite IH; tauto.
  Qed.

Lemma dict_get_nodup {V} (d : list (string * V)) (k : string) (v : V) :
  List.NoDup (List.map fst d) -> In (k, v) d -> dict_get k d = Some v.
Proof.
  induction d as [ | [k' v'] d IH]; simpl; intros Hnd Hin; [tauto | ].
  inversion Hnd as [ | ? ? Hk Hnd']; subst.
  destruct Hin as [Heq | Hin].
  - injection Heq as -> ->. now rewrite String.eqb_refl.
  - destruct (String.eqb_spec k k') as [-> | Hne]; [ | auto].
    exfalso. apply Hk. apply (List.in_map fst) in Hin. exact Hin.
Qed.

Section SignatureFacts.

Variable float_of_string : string -> option Q.













End SignatureFacts.



(** ** Tone is monotone in the values *)







Lemma dict_get_in {V} (d : list (string * V)) (k : string) (v : V) :
  dict_get k d = Some v -> In (k, v) d.
Proof.
  induction d as [ | [k' v'] d IH]; simpl; [discriminate | ].
  destruct (String.eqb_spec k k') as [-> | Hne].
  - intros [= ->]. now left.
  - intros H. right. auto.
Qed.

Lemma dict_get_none {V} (d : list (string * V)) (k : string) :
  dict_get k d = None -> ~ In k (List.map fst d).
Proof.
  induction d as [ | [k' v'] d IH]; simpl; [tauto | ].
  destruct (String.eqb_spec k k') as [-> | Hne]; [discriminate | ].
  intros H [Heq | Hin]; [congruence | ]. now apply IH.
Qed.

Section ToneFacts.

Variable float_of_string : string -> option Q.










End ToneFacts.



(** ** Theme classifier *)

Lemma theme_counts_eq (text : string) :
  theme_counts text = List.map (fun t => (t, count t (lower text))) VOCAB_themes.
Proof. reflexivity. Qed.

Lemma insert_desc_not_nil {A} (key : A -> nat) (x : A) (l : list A) :
  insert_desc key x l <> [].
Proof. destruct l; simpl; [discriminate | ]. destruct (key x <? key a)%nat; discriminate. Qed.

(** The head of the stable descending sort is the first of the elements with
    the greatest key. *)
Lemma sorted_desc_head {A} (key : A -> nat) (l : list A) (x : A) (tl : list A) :
  sorted_desc key l = x :: tl ->
  exists pre post,
    l = (pre ++ x :: post)%list
    /\ List.Forall (fun y => (key y < key x)%nat) pre
    /\ List.Forall (fun y => (key y <= key x)%nat) post.
Proof.
  revert x tl.
  induction l as [ | a l IH]; intros x tl; simpl; [discriminate | ].
  destruct (sorted_desc key l) as [ | y ys] eqn:E.
  - destruct l as [ | b l]; [ | simpl in E; now destruct (insert_desc_not_nil _ _ _ E)].
    simpl. intros [= <- <-]. exists [], []. repeat split; constructor.
  - destruct (IH y ys eq_refl) as (pre & post & Hl & Hpre & Hpost).
    simpl. destruct (key a <? key y)%nat eqn:Hlt.
    + intros [= <- <-]. apply Nat.ltb_lt in Hlt.
      exists (a :: pre), post. split; [simpl; now rewrite Hl | ].
      split; [constructor; assumption | assumption].
    + intros [= <- <-]. apply Nat.ltb_ge in Hlt.
      exists [], l. split; [reflexivity | ]. split; [constructor | ].
      rewrite Hl. apply List.Forall_app. split.
      * eapply List.Forall_impl; [ | exact Hpre]. simpl. intros; lia.
      * constructor; [exact Hlt | ].
        eapply List.Forall_impl; [ | exact Hpost]. simpl. intros; lia.
Qed.

Lemma sorted_desc_nil {A} (key : A -> nat) (l : list A) :
  sorted_desc key l = [] -> l = [].
Proof.
  destruct l as [ | a l]; [reflexivity | ]. simpl. intros E.
  now destruct (insert_desc_not_nil _ _ _ E).
Qed.

(** The theme of a text in which a theme word occurs. *)
Lemma top_theme_first_max (text : string) :
  (exists t, In t VOCAB_themes /\ (0 < count t (lower text))%nat) ->
  exists pre t post,
    top_theme text = Some t
    /\ VOCAB_themes = (pre ++ t :: post)%list
    /\ List.Forall (fun x => (count x (lower text) < count t (lower text))%nat) pre
    /\ List.Forall (fun x => (count x (lower text) <= count t (lower text))%nat) post.
Proof.
  intros (t0 & Hin0 & Hpos).
  unfold top_theme. rewrite theme_counts_eq.
  destruct (sorted_desc snd (List.map (fun t => (t, count t (lower text))) VOCAB_themes))
    as [ | [t n] tl] eqn:E.
  - apply sorted_desc_nil in E. discriminate E.
  - destruct (sorted_desc_head _ _ _ _ E) as (pre & post & Hl & Hpre & Hpost).
    apply List.map_eq_app in Hl.
    destruct Hl as (kpre & ktl & Hv & Hkpre & Hktl).
    destruct ktl as [ | t' kpost]; [discriminate Hktl | ].
    simpl in Hktl. injection Hktl as Ht Hn Hkpost. subst t' n pre post.
    simpl in Hpre, Hpost.
    rewrite List.Forall_map in Hpre, Hpost. simpl in Hpre, Hpost.
    assert (Hge : (count t0 (lower text) <= count t (lower text))%nat).
    { rewrite Hv in Hin0. apply in_app_or in Hin0. rewrite List.Forall_forall in Hpre, Hpost.
      destruct Hin0 as [Hin0 | [-> | Hin0]];
        [apply Nat.lt_le_incl; now apply Hpre | lia | now apply Hpost]. }
    assert (Hn : (0 <? count t (lower text))%nat = true) by (apply Nat.ltb_lt; lia).
    rewrite Hn. exists kpre, t, kpost. repeat split; assumption.
Qed.

(** Without any theme word there is no top theme. *)
Lemma top_theme_none (text : string) :
  top_theme text = None <->
  (forall t, In t VOCAB_themes -> count t (lower text) = 0%nat).
Proof.
  split.
  - intros Hnone t Hin.
    destruct (count t (lower text)) as [ | n] eqn:E; [reflexivity | ].
    destruct (top_theme_first_max text) as (? & ? & ? & H & _); [ | congruence].
    exists t. split; [exact Hin | lia].
  - intros Hzero. unfold top_theme. rewrite theme_counts_eq.
    destruct (sorted_desc snd _) as [ | [t n] tl] eqn:E; [reflexivity | ].
    destruct (sorted_desc_head _ _ _ _ E) as (pre & post & Hl & _).
    assert (Hin : In (t, n) (List.map (fun t => (t, count t (lower text))) VOCAB_themes))
      by (rewrite Hl; apply in_or_app; right; now left).
    apply List.in_map_iff in Hin. destruct Hin as (t' & [= -> <-] & Hin).
    now rewrite (Hzero _ Hin).
Qed.

(** C9.  When a theme word occurs in the text, [guess_theme_from_text]
    returns, whatever the random generator would give and without drawing
    from it, the theme of greatest count that stands first in the vocabulary:
    every theme before it has a strictly smaller count, no theme after it a
    greater one; so of several themes that tie for the greatest count the
    earliest is returned.  A random draw is made only when every count is
    zero. *)
Theorem guess_theme_from_text_ties (dice : nat -> nat) (text : string) :
  ((exists t, In t VOCAB_themes /\ (0 < count t (lower text))%nat) ->
   exists pre t post,
     VOCAB_themes = (pre ++ t :: post)%list
     /\ List.Forall (fun x => (count x (lower text) < count t (lower text))%nat) pre
     /\ List.Forall (fun x => (count x (lower text) <= count t (lower text))%nat) post
     /\ forall st, guess_theme_from_text dice text st = (Ok t, st))
  /\ (forall st,
        tick (snd (guess_theme_from_text dice text st)) <> tick st ->
        forall t, In t VOCAB_themes -> count t (lower text) = 0%nat)
  /\ ((forall t, In t VOCAB_themes -> count t (lower text) = 0%nat) ->
      guess_theme_from_text dice text = choice dice VOCAB_themes).
Proof.
  split; [ | split].
  - intros H. destruct (top_theme_first_max text H) as (pre & t & post & Htop & Hv & Hpre & Hpost).
    exists pre, t, post. repeat split; try assumption.
    intros st. unfold guess_theme_from_text. now rewrite Htop.
  - intros st Htick. apply top_theme_none.
    unfold guess_theme_from_text in Htick.
    destruct (top_theme text); [ | reflexivity].
    now destruct Htick.
  - intros Hzero. apply top_theme_none in Hzero.
    unfold guess_theme_from_text. now rewrite Hzero.
Qed.

Lemma guess_theme_from_text_ties_witness :
  count "light" (lower tied_text) = 2%nat
  /\ count "dream" (lower tied_text) = 2%nat
  /\ forall st, guess_theme_from_text (fun _ => 7%nat) tied_text st = (Ok "light", st).
Proof.
  split; [reflexivity | ]. split; [reflexivity | ].
  destruct (guess_theme_from_text_ties (fun _ => 7%nat) tied_text) as (H & _).
  destruct H as (pre & t & post & Hv & Hpre & Hpost & Hst).
  - exists "time". split; [simpl; tauto | vm_compute; lia].
  - intros st. rewrite (Hst st). specialize (Hst st).
    vm_compute in Hst. injection Hst as Ht. now rewrite <- Ht.
Defined.

(** ** Strings: strip and split *)

Lemma nonempty_app_r (a b : string) : nonempty b = true -> nonempty (a ++ b) = true.
Proof. destruct a; simpl; auto. Qed.







Lemma lstrip_app (a b : string) :
  nonempty a = true -> lstrip a = a -> lstrip (a ++ b) = a ++ b.
Proof.
  destruct a as [ | x a]; [discriminate | ]. simpl. intros _.
  destruct (is_space x) eqn:E; [ | reflexivity].
  intros H. exfalso.
  assert (Hlen : forall s, (String.length (lstrip s) <= String.length s)%nat).
  { induction s as [ | y s IH]; simpl; [lia | ]. destruct (is_space y); simpl; lia. }
  specialize (Hlen a). rewrite H in Hlen. simpl in Hlen. lia.
Qed.

Lemma rstrip_nonempty_id (b : string) :
  nonempty b = true -> rstrip b = b -> forall a, rstrip (a ++ b) = a ++ b.
Proof.
  intros Hne Hb a. induction a as [ | x a IH]; simpl; [exact Hb | ].
  rewrite IH. destruct (a ++ b) eqn:E; [ | reflexivity].
  destruct a; simpl in E; [subst b; discriminate Hne | discriminate E].
Qed.





Lemma fields_app_sep (p : ascii -> bool) (a b : string) (c : ascii) :
  p c = true -> fields p (a ++ String c b) = (fields p a ++ fields p b)%list.
Proof.
  intros Hc. induction a as [ | x a IH]; simpl.
  - now rewrite Hc.
  - destruct (p x); [now rewrite IH | ].
    rewrite IH. destruct (fields p a) eqn:E; [ | reflexivity].
    now destruct (fields_not_nil p a).
Qed.

Lemma fields_free (p : ascii -> bool) (s : string) :
  free_of p s = true -> fields p s = [s].
Proof.
  induction s as [ | x s IH]; simpl; [reflexivity | ].
  intros H. apply andb_true_iff in H. destruct H as [Hx Hs].
  apply negb_true_iff in Hx. rewrite Hx, (IH Hs). reflexivity.
Qed.

Lemma free_of_app (p : ascii -> bool) (a b : string) :
  free_of p (a ++ b) = free_of p a && free_of p b.
Proof.
  induction a as [ | x a IH]; simpl; [reflexivity | ].
  now rewrite IH, andb_assoc.
Qed.

Lemma has_char_free (c : ascii) (s : string) :
  has_char c s = negb (free_of (Ascii.eqb c) s).
Proof.
  induction s as [ | x s IH]; simpl; [reflexivity | ].
  rewrite IH. now destruct (Ascii.eqb c x).
Qed.









Lemma free_of_space_fixed (w : string) :
  free_of is_space w = true -> lstrip w = w /\ rstrip w = w.
Proof.
  induction w as [ | x w IH]; simpl; [auto | ].
  intros H. apply andb_true_iff in H. destruct H as [Hx Hw].
  apply negb_true_iff in Hx. rewrite Hx. split; [reflexivity | ].
  destruct (IH Hw) as [_ ->]. now destruct w.
Qed.

(** ** The cleaner *)












(** *** The counter against the count of occurrences *)

Lemma dict_get_set_same {V} (k : string) (v : V) (d : list (string * V)) :
  dict_get k (dict_set k v d) = Some v.
Proof.
  induction d as [ | [k' v'] d IH]; simpl.
  - now rewrite String.eqb_refl.
  - destruct (String.eqb k k') eqn:E; simpl; [now rewrite String.eqb_refl | now rewrite E].
Qed.

Lemma dict_get_set_other {V} (k k' : string) (v : V) (d : list (string * V)) :
  k <> k' -> dict_get k' (dict_set k v d) = dict_get k' d.
Proof.
  intros Hne. induction d as [ | [k0 v0] d IH]; simpl.
  - apply String.eqb_neq in Hne. rewrite String.eqb_sym in Hne. now rewrite Hne.
  - destruct (String.eqb_spec k k0) as [-> | Hk]; simpl.
    + apply String.eqb_neq in Hne. rewrite String.eqb_sym in Hne. now rewrite Hne.
    + now rewrite IH.
Qed.

Lemma dict_set_keys {V} (k : string) (v : V) (d : list (string * V)) :
  List.map fst (dict_set k v d) = List.map fst d
  \/ (~ In k (List.map fst d) /\ List.map fst (dict_set k v d) = (List.map fst d ++ [k])%list).
Proof.
  induction d as [ | [k' v'] d IH]; simpl.
  - right. auto.
  - destruct (String.eqb_spec k k') as [-> | Hk]; simpl; [now left | ].
    destruct IH as [-> | [Hin ->]]; [now left | ].
    right. split; [ | reflexivity]. intros [H | H]; [congruence | contradiction].
Qed.

Lemma dict_set_nodup {V} (k : string) (v : V) (d : list (string * V)) :
  List.NoDup (List.map fst d) -> List.NoDup (List.map fst (dict_set k v d)).
Proof.
  intros Hnd. destruct (dict_set_keys k v d) as [-> | [Hin ->]]; [exact Hnd | ].
  apply List.NoDup_app; [exact Hnd | repeat constructor; simpl; tauto | ].
  intros x Hx [<- | []]. contradiction.
Qed.

Lemma counter_from_get (words : list string) (c : list (string * nat)) (w : string) :
  dict_get_default w 0%nat (fold_left count_step words c)
  = (dict_get_default w 0%nat c + occurrences w words)%nat.
Proof.
  revert c. induction words as [ | x words IH]; intros c; simpl.
  - unfold occurrences. simpl. lia.
  - rewrite IH. unfold occurrences, count_step. simpl.
    unfold dict_get_default at 1.
    destruct (String.eqb_spec w x) as [-> | Hne].
    + rewrite dict_get_set_same. simpl. lia.
    + rewrite dict_get_set_other by congruence. unfold dict_get_default. lia.
Qed.

Lemma counter_from_nodup (words : list string) (c : list (string * nat)) :
  List.NoDup (List.map fst c) -> List.NoDup (List.map fst (fold_left count_step words c)).
Proof.
  revert c. induction words as [ | x words IH]; intros c H; simpl; [exact H | ].
  apply IH. now apply dict_set_nodup.
Qed.

Lemma counter_from_keys (words : list string) (c : list (string * nat)) (w : string) :
  In w (List.map fst (fold_left count_step words c)) ->
  In w (List.map fst c) \/ In w words.
Proof.
  revert c. induction words as [ | x words IH]; intros c; simpl; [auto | ].
  intros H. destruct (IH _ H) as [H' | H']; [ | auto].
  unfold count_step in H'.
  destruct (dict_set_keys x (S (dict_get_default x 0%nat c)) c) as [E | [_ E]];
    rewrite E in H'; [auto | ].
  apply in_app_or in H'. destruct H' as [H' | [<- | []]]; auto.
Qed.

(** Every entry of the counter is a word with its number of occurrences. *)
Lemma counter_entry (words : list string) (w : string) (n : nat) :
  In (w, n) (counter words) -> n = occurrences w words /\ In w words.
Proof.
  intros Hin. change (counter words) with (fold_left count_step words []) in Hin.
  pose proof (counter_from_nodup words [] (List.NoDup_nil _)) as Hnd.
  pose proof (dict_get_nodup _ _ _ Hnd Hin) as Hget.
  pose proof (counter_from_get words [] w) as Hc.
  unfold dict_get_default at 1 in Hc. rewrite Hget in Hc. simpl in Hc.
  split; [exact Hc | ].
  apply (List.in_map fst) in Hin. simpl in Hin.
  destruct (counter_from_keys _ _ _ Hin) as [[] | H]. exact H.
Qed.

Lemma counter_has (words : list string) (w : string) :
  In w words -> In (w, occurrences w words) (counter words).
Proof.
  intros Hin. change (counter words) with (fold_left count_step words []).
  pose proof (counter_from_get words [] w) as Hc.
  unfold dict_get_default in Hc. simpl in Hc.
  destruct (dict_get w (fold_left count_step words [])) as [n | ] eqn:E.
  - apply dict_get_in in E. now rewrite <- Hc.
  - exfalso. assert (Hpos : (0 < occurrences w words)%nat); [ | lia].
    unfold occurrences. clear -Hin.
    induction words as [ | x words IH]; simpl in *; [contradiction | ].
    destruct (String.eqb_spec w x); simpl; [lia | ].
    destruct Hin as [-> | Hin]; [congruence | auto].
Qed.






(** A text made of punctuation only is neither rejected nor cleaned: the
    cleaner raises on it. *)
Lemma clean_bare_full_stop : clean_generated_text " . " = Raise IndexError.
Proof. reflexivity. Qed.

(** ** The monad: computations that only take readings *)

Lemma reads_only_ret {A} (a : A) : reads_only (ret a).
Proof.
  intros st. exists a, 0%nat. unfold ret. destruct st. simpl. now rewrite Nat.add_0_r.
Qed.

Lemma reads_only_bind {A B} (m : M A) (k : A -> M B) :
  reads_only m -> (forall a, reads_only (k a)) -> reads_only (bind m k).
Proof.
  intros Hm Hk st. destruct (Hm st) as (a & n & E).
  destruct (Hk a (mkState (memory_file st) (writes st) (tick st + n)%nat)) as (b & n' & E').
  exists b, (n + n')%nat. unfold bind. rewrite E, E'. simpl. now rewrite Nat.add_assoc.
Qed.

Lemma reads_only_fresh : reads_only fresh.
Proof.
  intros st. exists (tick st), 1%nat. unfold fresh. now rewrite Nat.add_1_r.
Qed.

Lemma nth_error_mod {A} (pool : list A) (n : nat) :
  pool <> [] -> exists x, nth_error pool (n mod List.length pool)%nat = Some x.
Proof.
  intros Hne.
  destruct (nth_error pool (n mod List.length pool)%nat) as [x | ] eqn:E; [now exists x | ].
  apply List.nth_error_None in E. exfalso.
  assert (List.length pool <> 0)%nat by (destruct pool; [congruence | discriminate]).
  pose proof (Nat.mod_upper_bound n (List.length pool)). lia.
Qed.

Section Readings.

Variable clock : nat -> Z.
Variable dice : nat -> nat.


Lemma reads_only_choice {A} (pool : list A) : pool <> [] -> reads_only (choice dice pool).
Proof.
  intros Hne. unfold choice. apply reads_only_bind; [apply reads_only_fresh | ].
  intros n st. destruct (nth_error_mod pool (dice n) Hne) as [x E].
  exists x, 0%nat. unfold lift. rewrite E. simpl. destruct st. simpl.
  now rewrite Nat.add_0_r.
Qed.

Lemma reads_only_guess (text : string) : reads_only (guess_theme_from_text dice text).
Proof.
  unfold guess_theme_from_text.
  destruct (top_theme text); [apply reads_only_ret | ].
  apply reads_only_choice. discriminate.
Qed.


Lemma tone_pool_not_nil (tone_ : string) :
  dict_get_default tone_ (dict_get_default "neutral" [] VOCAB_tones) VOCAB_tones <> [].
Proof.
  unfold dict_get_default, VOCAB_tones. simpl.
  destruct (String.eqb tone_ "bright"); [discriminate | ].
  destruct (String.eqb tone_ "neutral"); [discriminate | ].
  destruct (String.eqb tone_ "dark"); discriminate.
Qed.


End Readings.

Section StoreFacts.

Variable clock : nat -> Z.
Variable dice : nat -> nat.
Variable write_fails : nat -> bool.
Variable py_format : pyval -> string.
Variable isoformat : Z -> string.

(** What one call of [append_memory_entry] does: nothing when the name cannot
    be looked up; otherwise one entry is put at the end of the history found
    for the name, the last [KEEP_HISTORY] entries are kept, and the mapping is
    written back, unless the write fails. *)
Lemma append_any (name : pyval) (text z t : string) (theme_ : option string) (st : state) :
  match memory_get (stored st) name with
  | Raise _ =>
      append_memory_entry clock dice write_fails py_format isoformat name text z t theme_ st
      = (Ok tt, st)
  | Ok history =>
      exists e k,
        timestamp e = isoformat (clock (tick st)) /\ fortune e = text
        /\ zodiac e = z /\ tone e = t
        /\ (forall th, theme_ = Some th -> nonempty th = true -> theme e = th)
        /\ append_memory_entry clock dice write_fails py_format isoformat
             name text z t theme_ st
           = (Ok tt,
              if write_fails (tick st + k)%nat
              then mkState (memory_file st) (writes st) (S (tick st + k))
              else mkState (Some (<[json_key py_format name
                                    := last_n KEEP_HISTORY (history ++ [e])%list]> (stored st)))
                           (S (writes st)) (S (tick st + k)))
  end.
Proof.
  destruct (memory_get (stored st) name) as [history | err] eqn:Eget.
  2: { unfold append_memory_entry, catch, bind, load_memory, lift.
       change (default ∅ (memory_file st)) with (stored st). now rewrite Eget. }
  unfold append_memory_entry, catch.
  unfold bind at 1. unfold load_memory at 1.
  unfold bind at 1. unfold lift at 1.
  change (default ∅ (memory_file st)) with (stored st). rewrite Eget.
  unfold bind at 1. unfold now at 1, bind at 1, fresh at 1, ret at 1.
  cbn [memory_file writes tick].
  set (TH := match theme_ with
             | Some th => if nonempty th then ret th else guess_theme_from_text dice text
             | None => guess_theme_from_text dice text
             end).
  set (st1 := mkState (memory_file st) (writes st) (S (tick st))).
  assert (HTH : exists th k',
             TH st1 = (Ok th, mkState (memory_file st) (writes st) (S (tick st) + k')%nat)
             /\ (forall th0, theme_ = Some th0 -> nonempty th0 = true -> th = th0)).
  { subst TH. destruct theme_ as [th | ].
    - destruct (nonempty th) eqn:Hne.
      + exists th, 0%nat. split; [unfold ret, st1; now rewrite Nat.add_0_r | ].
        now intros th0 [= ->] _.
      + destruct (reads_only_guess dice text st1) as (th' & k' & E).
        exists th', k'. split; [exact E | ]. intros th0 [= ->] H. congruence.
    - destruct (reads_only_guess dice text st1) as (th' & k' & E).
      exists th', k'. split; [exact E | ]. discriminate. }
  destruct HTH as (th & k' & ETH & Hth).
  exists (mkEntry (isoformat (clock (tick st))) text z t th), (S k').
  repeat (split; [reflexivity || exact Hth | ]).
  unfold bind at 1. rewrite ETH.
  unfold bind, save_memory, bind, fresh, ret. cbn [memory_file writes tick].
  replace (tick st + S k')%nat with (S (tick st) + k')%nat by lia.
  destruct (write_fails (S (tick st) + k')%nat); reflexivity.
Qed.

Lemma append_string (s text z t : string) (theme_ : option string) (st : state) :
  exists e k,
    timestamp e = isoformat (clock (tick st)) /\ fortune e = text
    /\ zodiac e = z /\ tone e = t
    /\ (forall th, theme_ = Some th -> nonempty th = true -> theme e = th)
    /\ append_memory_entry clock dice write_fails py_format isoformat
         (PStr s) text z t theme_ st
       = (Ok tt,
          if write_fails (tick st + k)%nat
          then mkState (memory_file st) (writes st) (S (tick st + k))
          else mkState (Some (<[s := last_n KEEP_HISTORY (history_of st s ++ [e])%list]> (stored st)))
                       (S (writes st)) (S (tick st + k))).
Proof. exact (append_any (PStr s) text z t theme_ st). Qed.

Lemma last_n_length {A} (n : nat) (l : list A) : (List.length (last_n n l) <= n)%nat.
Proof. unfold last_n. rewrite List.length_skipn. lia. Qed.

Lemma last_n_app {A} (n : nat) (l l' : list A) :
  last_n n (last_n n l ++ l')%list = last_n n (l ++ l')%list.
Proof.
  unfold last_n. rewrite !List.length_app, List.length_skipn.
  destruct (Nat.le_gt_cases (List.length l) n) as [Hle | Hgt].
  - replace (List.length l - n)%nat with 0%nat by lia.
    rewrite Nat.sub_0_r. reflexivity.
  - rewrite (List.skipn_app (List.length l + List.length l' - n)).
    rewrite (List.skipn_app (List.length l - (List.length l - n) + List.length l' - n)).
    rewrite List.length_skipn.
    rewrite List.skipn_skipn.
    replace (List.length l - (List.length l - n) + List.length l' - n
             + (List.length l - n))%nat
      with (List.length l + List.length l' - n)%nat by lia.
    f_equal. f_equal. lia.
Qed.

Lemma append_capped (name : pyval) (text z t : string) (theme_ : option string) (st : state) :
  capped st ->
  capped (snd (append_memory_entry clock dice write_fails py_format isoformat
                 name text z t theme_ st)).
Proof.
  intros Hcap. pose proof (append_any name text z t theme_ st) as H.
  destruct (memory_get (stored st) name) as [history | err]; [ | now rewrite H].
  destruct H as (e & k & _ & _ & _ & _ & _ & ->). cbn [snd].
  destruct (write_fails (tick st + k)%nat); [exact Hcap | ].
  intros user. specialize (Hcap user). unfold history_of, stored in *. simpl.
  destruct (decide (json_key py_format name = user)) as [<- | Hne].
  - rewrite lookup_insert_eq. simpl. apply last_n_length.
  - rewrite lookup_insert_ne by assumption. exact Hcap.
Qed.

Lemma append_all_capped (calls : list (pyval * string * string * string * option string))
    (st : state) :
  capped st ->
  capped (append_all clock dice write_fails py_format isoformat calls st).
Proof.
  revert st. induction calls as [ | [[[[name text] z] t] th] calls IH]; intros st Hcap; simpl.
  - exact Hcap.
  - apply IH. now apply append_capped.
Qed.

Lemma last_n_short {A} (n : nat) (l : list A) :
  (List.length l <= n)%nat -> last_n n l = l.
Proof.
  intros H. unfold last_n. replace (List.length l - n)%nat with 0%nat by lia. reflexivity.
Qed.

Lemma append_all_history (s : string)
    (calls : list (pyval * string * string * string * option string)) (st : state) :
  (forall n, write_fails n = false) ->
  List.Forall (fun c => fst (fst (fst (fst c))) = PStr s) calls ->
  (List.length (history_of st s) <= KEEP_HISTORY)%nat ->
  exists es,
    List.Forall2 entry_matches calls es
    /\ history_of (append_all clock dice write_fails py_format isoformat calls st) s
       = last_n KEEP_HISTORY (history_of st s ++ es)%list.
Proof.
  intros Hw. revert st.
  induction calls as [ | [[[[name text] z] t] th] calls IH]; intros st Hnames Hcap; simpl.
  - exists []. split; [constructor | ].
    rewrite app_nil_r. now rewrite last_n_short.
  - inversion Hnames as [ | ? ? Hname Hrest]; subst. simpl in Hname. subst name.
    destruct (append_string s text z t th st) as (e & k & _ & Hf & Hz & Ht & _ & Happ).
    rewrite Happ, Hw. cbn [snd].
    set (st1 := mkState _ _ _).
    assert (Hst1 : history_of st1 s = last_n KEEP_HISTORY (history_of st s ++ [e])%list).
    { unfold history_of at 1, stored, st1. simpl. now rewrite lookup_insert_eq. }
    destruct (IH st1 Hrest) as (es & Hes & Hfinal).
    { rewrite Hst1. apply last_n_length. }
    exists (e :: es). split; [constructor; [repeat split; assumption | exact Hes] | ].
    rewrite Hfinal, Hst1, last_n_app. now rewrite <- app_assoc.
Qed.

(** After an append that is written, the history of the user holds one entry
    more, or [KEEP_HISTORY] entries if that would be too many. *)
Lemma append_length (s text z t : string) (theme_ : option string) (st : state) :
  (forall n, write_fails n = false) ->
  List.length (history_of (snd (append_memory_entry clock dice write_fails py_format
                                  isoformat (PStr s) text z t theme_ st)) s)
  = Nat.min KEEP_HISTORY (S (List.length (history_of st s))).
Proof.
  intros Hw.
  destruct (append_string s text z t theme_ st) as (e & k & _ & _ & _ & _ & _ & Happ).
  rewrite Happ, Hw. cbn [snd].
  set (st1 := mkState _ _ _).
  assert (Hst1 : history_of st1 s = last_n KEEP_HISTORY (history_of st s ++ [e])%list).
  { unfold history_of at 1, stored, st1. simpl. now rewrite lookup_insert_eq. }
  rewrite Hst1. unfold last_n.
  rewrite List.length_skipn, List.length_app.
  cbn [List.length]. unfold KEEP_HISTORY. lia.
Qed.

End StoreFacts.

(** C7.  However the appends go (whatever the names, and whether or not each
    write succeeds), a store in which no history has more than 12 entries, so
    the empty store, stays so.  When the writes succeed, the history of a user
    after a run of appends for that user is made of the last 12 entries of the
    former history followed by the appended entries, oldest first; so fifteen
    appends to an empty history leave exactly the twelve most recent entries,
    in the order they were appended.  And whatever the history was before,
    after one append that is written it has one entry more, or 12 entries if
    that would be more than 12. *)
Theorem append_memory_entry_retention
    (clock : nat -> Z) (dice : nat -> nat) (write_fails : nat -> bool)
    (py_format : pyval -> string) (isoformat : Z -> string) :
  (forall calls st,
      capped st ->
      capped (append_all clock dice write_fails py_format isoformat calls st))
  /\ (forall s text z t theme_ st,
        (forall n, write_fails n = false) ->
        List.length (history_of (snd (append_memory_entry clock dice write_fails py_format
                                        isoformat (PStr s) text z t theme_ st)) s)
        = Nat.min KEEP_HISTORY (S (List.length (history_of st s))))
  /\ (forall s calls st,
        (forall n, write_fails n = false) ->
        List.Forall (fun c => fst (fst (fst (fst c))) = PStr s) calls ->
        (List.length (history_of st s) <= KEEP_HISTORY)%nat ->
        exists es,
          List.Forall2 entry_matches calls es
          /\ history_of (append_all clock dice write_fails py_format isoformat calls st) s
             = last_n KEEP_HISTORY (history_of st s ++ es)%list
          /\ (history_of st s = [] -> List.length calls = 15%nat ->
              history_of (append_all clock dice write_fails py_format isoformat calls st) s
              = List.skipn 3 es
              /\ List.length (List.skipn 3 es) = 12%nat)).
Proof.
  split; [apply append_all_capped | ].
  split; [intros; now apply append_length | ].
  intros s calls st Hw Hnames Hcap.
  destruct (append_all_history clock dice write_fails py_format isoformat
              s calls st Hw Hnames Hcap) as (es & Hes & Hfinal).
  exists es. split; [exact Hes | ]. split; [exact Hfinal | ].
  intros Hempty Hlen. rewrite Hfinal, Hempty. simpl.
  pose proof (List.Forall2_length Hes) as Hl. rewrite Hlen in Hl.
  unfold last_n, KEEP_HISTORY. rewrite <- Hl. simpl.
  split; [reflexivity | ]. rewrite List.length_skipn. lia.
Qed.

Lemma capped_empty_state : capped empty_state.
Proof.
  intros user. unfold history_of, stored, empty_state. simpl.
  rewrite lookup_empty. simpl. unfold KEEP_HISTORY. lia.
Qed.

Lemma append_memory_entry_retention_witness :
  let final :=
    append_all (fun n => Z.of_nat n) (fun _ => 0%nat) (fun _ => false)
      (fun _ => EmptyString) (fun _ => "2024-01-01T00:00:00") fifteen_calls empty_state in
  capped final
  /\ exists es,
       List.Forall2 entry_matches fifteen_calls es
       /\ history_of final "Ada" = List.skipn 3 es
       /\ List.length (List.skipn 3 es) = 12%nat.
Proof.
  intros final.
  destruct (append_memory_entry_retention (fun n => Z.of_nat n) (fun _ => 0%nat)
              (fun _ => false) (fun _ => EmptyString) (fun _ => "2024-01-01T00:00:00"))
    as (Hcap & _ & Hrun).
  split; [apply Hcap; exact capped_empty_state | ].
  destruct (Hrun "Ada" fifteen_calls empty_state) as (es & Hes & _ & Hlast).
  - reflexivity.
  - unfold fifteen_calls. simpl. repeat constructor.
  - apply capped_empty_state.
  - exists es. split; [exact Hes | ]. apply Hlast; [ | reflexivity].
    unfold history_of, stored, empty_state. simpl. now rewrite lookup_empty.
Defined.

(** ** Purge *)

Section PurgeFacts.

Variable clock : nat -> Z.
Variable write_fails : nat -> bool.
Variable fromisoformat : string -> option datetime.






Lemma names_lookup (mem : memory) (u : string) :
  In u (List.map fst (map_to_list mem)) <-> exists hist, mem !! u = Some hist.
Proof.
  rewrite List.in_map_iff. split.
  - intros ([k hist] & <- & Hin). exists hist.
    apply elem_of_map_to_list. now apply list_elem_of_In.
  - intros (hist & H). exists (u, hist). split; [reflexivity | ].
    apply list_elem_of_In. now apply elem_of_map_to_list.
Qed.




Lemma keep_recent_bad (cutoff : Z) (hist : list HistoryEntry) (e : HistoryEntry) :
  In e hist -> fromisoformat (timestamp e) = None ->
  exists err, keep_recent fromisoformat cutoff hist = Raise err.
Proof.
  intros Hin Hbad. induction hist as [ | h hist IH]; [contradiction | ]. simpl.
  destruct Hin as [-> | Hin].
  - unfold not_older. rewrite Hbad. simpl. eauto.
  - destruct (not_older fromisoformat cutoff h) as [b | err]; simpl; [ | eauto].
    destruct (IH Hin) as (err & ->). simpl. eauto.
Qed.

Lemma purge_loop_bad (cutoff : Z) (names : list string) (mem : memory) (removed : nat)
    (u : string) (hist : list HistoryEntry) (e : HistoryEntry) :
  In u names -> mem !! u = Some hist -> In e hist ->
  fromisoformat (timestamp e) = None ->
  exists err, purge_loop fromisoformat cutoff names mem removed = Raise err.
Proof.
  intros Hu Hmem Hin Hbad. revert mem removed Hmem.
  induction names as [ | name names IH]; intros mem removed Hmem; [contradiction | ]. simpl.
  destruct (keep_recent fromisoformat cutoff (default [] (mem !! name)))
    as [newhist | err] eqn:Ek; simpl; [ | eauto].
  destruct (decide (name = u)) as [-> | Hne].
  - rewrite Hmem in Ek. simpl in Ek.
    destruct (keep_recent_bad cutoff hist e Hin Hbad) as (err & E). congruence.
  - destruct Hu as [-> | Hu]; [contradiction | ].
    apply IH; [exact Hu | ].
    destruct newhist; [now rewrite lookup_delete_ne | now rewrite lookup_insert_ne].
Qed.

(** Purge on a store with a timestamp that does not read. *)
Lemma purge_bad (days : Z) (st : state) (u : string) (hist : list HistoryEntry)
    (e : HistoryEntry) :
  stored st !! u = Some hist -> In e hist -> fromisoformat (timestamp e) = None ->
  purge_memory_older_than clock write_fails fromisoformat days st
  = (Ok 0%nat, mkState (memory_file st) (writes st) (S (tick st))).
Proof.
  intros Hmem Hin Hbad.
  unfold purge_memory_older_than, catch.
  unfold bind at 1. unfold load_memory at 1.
  unfold bind at 1. unfold now at 1, bind at 1, fresh at 1, ret at 1.
  cbn [memory_file writes tick].
  unfold bind at 1. unfold lift at 1.
  destruct (minus_days (clock (tick st)) days) as [cutoff | err]; [ | reflexivity].
  unfold bind at 1. unfold lift at 1.
  change (default ∅ (memory_file st)) with (stored st).
  destruct (purge_loop_bad cutoff (List.map fst (map_to_list (stored st))) (stored st) 0
              u hist e) as (err & ->); try assumption.
  - apply names_lookup. eauto.
  - reflexivity.
Qed.

End PurgeFacts.




(** C10.  If some stored entry has a timestamp that does not read as an
    ISO-8601 datetime, purge returns 0 and does not write the memory file: the
    file, and with it every user's stored history, is as it was. *)
Theorem purge_memory_older_than_unparseable
    (clock : nat -> Z) (write_fails : nat -> bool) (fromisoformat : string -> option datetime)
    (days : Z) (st : state) :
  (exists u hist e,
      stored st !! u = Some hist /\ In e hist /\ fromisoformat (timestamp e) = None) ->
  exists st',
    purge_memory_older_than clock write_fails fromisoformat days st = (Ok 0%nat, st')
    /\ memory_file st' = memory_file st
    /\ writes st' = writes st
    /\ forall u, history_of st' u = history_of st u.
Proof.
  intros (u & hist & e & Hmem & Hin & Hbad).
  exists (mkState (memory_file st) (writes st) (S (tick st))).
  split; [eapply purge_bad; eassumption | ].
  repeat split.
Qed.

Lemma purge_memory_older_than_unparseable_witness :
  exists st',
    purge_memory_older_than sample_clock (fun _ => false) sample_fromisoformat 365 spoiled_state
    = (Ok 0%nat, st')
    /\ memory_file st' = memory_file spoiled_state
    /\ writes st' = 3%nat
    /\ forall u, history_of st' u = history_of spoiled_state u.
Proof.
  apply (purge_memory_older_than_unparseable sample_clock (fun _ => false)
           sample_fromisoformat 365 spoiled_state).
  exists "Cy", [old_entry; bad_entry], bad_entry.
  split; [ | split; [simpl; tauto | reflexivity]].
  unfold stored, spoiled_state. simpl. apply lookup_insert_eq.
Defined.

(** ** The orchestrator *)

Lemma same_file_refl (st : state) : same_file st st.
Proof. split; reflexivity. Qed.

Lemma same_file_trans (a b c : state) : same_file a b -> same_file b c -> same_file a c.
Proof. intros [H1 H2] [H3 H4]. split; congruence. Qed.


Lemma quiet_ret {A} (a : A) : quiet (ret a).
Proof. intros st. apply same_file_refl. Qed.

Lemma quiet_raise {A} (e : exn) : quiet (@raise A e).
Proof. intros st. apply same_file_refl. Qed.

Lemma quiet_lift {A} (r : result A) : quiet (lift r).
Proof. intros st. apply same_file_refl. Qed.

Lemma quiet_reads_only {A} (m : M A) : reads_only m -> quiet m.
Proof. intros H st. destruct (H st) as (a & k & ->). split; reflexivity. Qed.

Lemma quiet_bind {A B} (m : M A) (k : A -> M B) :
  quiet m -> (forall a, quiet (k a)) -> quiet (bind m k).
Proof.
  intros Hm Hk st. specialize (Hm st). unfold bind.
  destruct (m st) as [[a | e] st1]; simpl in *; [ | exact Hm].
  eapply same_file_trans; [exact Hm | apply Hk].
Qed.




Lemma reads_only_load : reads_only load_memory.
Proof.
  intros st. exists (default ∅ (memory_file st)), 0%nat. unfold load_memory.
  destruct st. simpl. now rewrite Nat.add_0_r.
Qed.


Section OrchestratorFacts.

Variable clock : nat -> Z.
Variable dice : nat -> nat.
Variable write_fails : nat -> bool.
Variable FORCE_RULE_BASED : bool.
Variable transformers_imports : bool.
Variable model_loads : bool.
Variable language_model : nat -> string -> result string.
Variable py_format : pyval -> string.
Variable float_of_string : string -> option Q.
Variable json_dumps : pydict -> result string.
Variable isoformat : Z -> string.
Variable strftime_long : Z -> string.

Hypothesis writes_succeed : forall n, write_fails n = false.






End OrchestratorFacts.

(** C1.  [generate_fortune] never raises: for every input dict and every
    state of the world it returns a string.  The string is the one its body
    returns, or, when the body raises, the fixed placeholder sentence, which
    is not empty. *)
Theorem generate_fortune_never_raises
    (clock : nat -> Z) (dice : nat -> nat) (write_fails : nat -> bool)
    (FORCE_RULE_BASED transformers_imports model_loads : bool)
    (language_model : nat -> string -> result string)
    (py_format : pyval -> string) (float_of_string : string -> option Q)
    (json_dumps : pydict -> result string) (isoformat strftime_long : Z -> string)
    (user_data : pydict) (st : state) :
  exists text st',
    generate_fortune clock dice write_fails FORCE_RULE_BASED transformers_imports
      model_loads language_model py_format float_of_string json_dumps isoformat
      strftime_long user_data st = (Ok text, st')
    /\ (generate_fortune_body clock dice write_fails FORCE_RULE_BASED transformers_imports
          model_loads language_model py_format float_of_string json_dumps isoformat
          strftime_long user_data st = (Ok text, st')
        \/ (text = PLACEHOLDER
            /\ exists e,
                 generate_fortune_body clock dice write_fails FORCE_RULE_BASED
                   transformers_imports model_loads language_model py_format
                   float_of_string json_dumps isoformat strftime_long user_data st
                 = (Raise e, st')))
    /\ PLACEHOLDER = "The mirror is quiet right now. Try again in a little while."
    /\ nonempty PLACEHOLDER = true.
Proof.
  unfold generate_fortune, catch.
  destruct (generate_fortune_body _ _ _ _ _ _ _ _ _ _ _ _ user_data st)
    as [[text | e] st'].
  - exists text, st'. repeat split. now left.
  - exists PLACEHOLDER, st'. repeat split. right. split; [reflexivity | now exists e].
Qed.

(** The worst case is met: a name that cannot be hashed makes the body raise,
    and the placeholder comes back. *)
Lemma generate_fortune_worst_case :
  exists e st',
    generate_fortune_body sample_clock sample_dice (fun _ => false) true true true
      silent_model sample_format sample_float sample_dumps sample_isoformat
      sample_strftime nameless sample_state = (Raise e, st')
    /\ generate_fortune sample_clock sample_dice (fun _ => false) true true true
         silent_model sample_format sample_float sample_dumps sample_isoformat
         sample_strftime nameless sample_state = (Ok PLACEHOLDER, st').
Proof. eexists _, _. split; vm_compute; reflexivity. Qed.




(** With the generative path on, a text that [generate_ml_fortune] has stored
    and returned, and that the orchestrator then finds invalid, is followed by
    a rule-based fortune that is stored as well: two entries for one call. *)
Lemma generate_fortune_stores_rejected_text :
  exists text st',
    generate_fortune sample_clock sample_dice (fun _ => false) false true true
      silent_model sample_format sample_float sample_dumps sample_isoformat
      sample_strftime ada sample_state = (Ok text, st')
    /\ writes st' = 2%nat
    /\ List.map fortune (history_of st' "Ada")
       = (List.map fortune (history_of sample_state "Ada")
          ++ ["The mirror is silent tonight, dear one."; text])%list.
Proof.
  eexists _, _. split; [vm_compute; reflexivity | ].
  split; [reflexivity | ]. vm_compute. reflexivity.
Qed.

(* ================================================================== *)
(** * Part III: further properties *)
(* ================================================================== *)

(** ** The two zodiac resolvers *)

Ltac split_day_tests :=
  repeat match goal with
         | |- context [Z.geb ?d ?k] => destruct (Z.geb_spec d k); cbn [andb orb]
         | |- context [Z.leb ?d ?k] => destruct (Z.leb_spec d k); cbn [andb orb]
         end.

(** The rows of [astrology.py] in the shape of the engine's rows, each with
    the element [get_element] gives for its sign. *)
Lemma astrology_find_sign_rows (month day : Z) (rows : list (string * (Z * Z) * (Z * Z))) :
  Astrology.find_sign month day rows
  = find_sign month day
      (List.map (fun row => let '(sign, (m1, d1), (m2, d2)) := row in
                            ((m1, d1, m2, d2), sign, Astrology.get_element sign)) rows).
Proof.
  induction rows as [ | [[sign [m1 d1]] [m2 d2]] rows IH]; simpl; [reflexivity | ].
  now rewrite IH.
Qed.

Lemma find_sign_fixed_month (month day : Z) :
  month = 1 \/ month = 2 \/ month = 3 \/ month = 4 \/ month = 5 \/ month = 6
  \/ month = 7 \/ month = 8 \/ month = 9 \/ month = 10 \/ month = 11 \/ month = 12 ->
  find_sign month day signs
  = find_sign month day (((12, 22, 1, 19), "Capricorn", "Earth") :: List.removelast signs).
Proof.
  intros Hm. unfold signs. cbn [List.removelast].
  repeat (destruct Hm as [-> | Hm]); [ .. | subst month ];
    cbn [find_sign Z.eqb Pos.eqb andb orb];
    split_day_tests; try reflexivity; lia.
Qed.

Lemma find_sign_rotated (month day : Z) :
  find_sign month day signs
  = find_sign month day (((12, 22, 1, 19), "Capricorn", "Earth") :: List.removelast signs).
Proof.
  assert (Hm : (month = 1 \/ month = 2 \/ month = 3 \/ month = 4 \/ month = 5 \/ month = 6
                \/ month = 7 \/ month = 8 \/ month = 9 \/ month = 10 \/ month = 11
                \/ month = 12) \/ (month < 1 \/ 12 < month)) by lia.
  destruct Hm as [Hm | Hm]; [now apply find_sign_fixed_month | ].
  unfold signs. cbn [List.removelast find_sign].
  repeat match goal with
         | |- context [Z.eqb month ?k] =>
             replace (Z.eqb month k) with false by (symmetry; apply Z.eqb_neq; lia)
         end.
  reflexivity.
Qed.

Lemma astrology_rows_rotated :
  List.map (fun row => let '(sign, (m1, d1), (m2, d2)) := row in
                       ((m1, d1, m2, d2), sign, Astrology.get_element sign))
    Astrology.ZODIAC_SIGNS
  = ((12, 22, 1, 19), "Capricorn", "Earth") :: List.removelast signs.
Proof. reflexivity. Qed.

(** X1.  The table of the engine and the table of [astrology.py], read with
    its element table, give the same answer for every month and day, whole
    numbers of any size: the same sign with the same element, or
    ("Unknown", "Void") in both. *)
Theorem zodiac_tables_agree (month day : Z) :
  find_sign month day signs = Astrology.find_sign month day Astrology.ZODIAC_SIGNS.
Proof.
  rewrite astrology_find_sign_rows, astrology_rows_rotated.
  apply find_sign_rotated.
Qed.

Lemma digit_char (c : ascii) :
  is_digit c = true -> c = ascii_of_nat (Z.to_nat (digit_val c) + 48).
Proof.
  destruct c as [[] [] [] [] [] [] [] []]; intros H;
    try (vm_compute in H; discriminate H); reflexivity.
Qed.

Lemma is_iso_date_inv (s : string) :
  is_iso_date s = true ->
  exists y1 y2 y3 y4 m1 m2 d1 d2,
    s = String y1 (String y2 (String y3 (String y4 (String "-"
          (String m1 (String m2 (String "-" (String d1 (String d2 EmptyString)))))))))
    /\ (is_digit y1 = true /\ is_digit y2 = true /\ is_digit y3 = true /\ is_digit y4 = true)
    /\ (is_digit m1 = true /\ is_digit m2 = true /\ is_digit d1 = true /\ is_digit d2 = true)
    /\ 1 <= 1000 * digit_val y1 + 100 * digit_val y2 + 10 * digit_val y3 + digit_val y4
    /\ 1 <= 10 * digit_val m1 + digit_val m2 <= 12
    /\ 1 <= 10 * digit_val d1 + digit_val d2
       <= Astrology.days_in_month
            (1000 * digit_val y1 + 100 * digit_val y2 + 10 * digit_val y3 + digit_val y4)
            (10 * digit_val m1 + digit_val m2).
Proof.
  intros H.
  do 10 (destruct s as [ | ? s]; [discriminate H | ]).
  destruct s; [ | discriminate H].
  cbn [is_iso_date] in H.
  repeat match type of H with
         | (_ && _) = true => apply andb_true_iff in H; destruct H as [H ?]
         end.
  repeat match goal with
         | E : Ascii.eqb _ "-" = true |- _ => apply Ascii.eqb_eq in E; subst
         | E : (_ <=? _) = true |- _ => apply Z.leb_le in E
         end.
  do 8 eexists. split; [reflexivity | ]. repeat split; assumption.
Qed.

(** What the engine's resolver does with a calendar date. *)
Lemma analyze_zodiac_iso_eq (y1 y2 y3 y4 m1 m2 d1 d2 : ascii) :
  is_digit y1 = true -> is_digit y2 = true -> is_digit y3 = true -> is_digit y4 = true ->
  is_digit m1 = true -> is_digit m2 = true -> is_digit d1 = true -> is_digit d2 = true ->
  analyze_zodiac
    (PStr (String y1 (String y2 (String y3 (String y4 (String "-"
             (String m1 (String m2 (String "-" (String d1 (String d2 EmptyString)))))))))))
  = find_sign (10 * digit_val m1 + digit_val m2) (10 * digit_val d1 + digit_val d2) signs.
Proof.
  intros.
  repeat match goal with
         | D : is_digit ?c = true |- _ =>
             lazymatch goal with
             | _ : Ascii.eqb "-" c = false |- _ => fail
             | _ => pose proof (digit_facts c D) as (_ & ? & _ & _ & _ & ?)
             end
         end.
  unfold analyze_zodiac, parse_month_day, split_on.
  repeat first [ rewrite fields_keep by assumption
               | rewrite fields_cut by reflexivity ].
  cbn [fields List.length Nat.ltb Nat.leb nth rbind].
  rewrite !py_int_two_digits by assumption.
  reflexivity.
Qed.

Lemma days_in_month_le_31 (y m : Z) : Astrology.days_in_month y m <= 31.
Proof.
  unfold Astrology.days_in_month.
  destruct (m =? 2); [destruct (Astrology.is_leap y); lia | ].
  destruct ((m =? 4) || (m =? 6) || (m =? 9) || (m =? 11)); lia.
Qed.

Lemma month_field_two_digits (m1 m2 : ascii) (r : string) :
  is_digit m1 = true -> is_digit m2 = true ->
  1 <= 10 * digit_val m1 + digit_val m2 <= 12 ->
  Astrology.month_field (String m1 (String m2 r))
  = Some (10 * digit_val m1 + digit_val m2, r).
Proof.
  intros H1 H2 Hm.
  destruct (digit_facts m1 H1) as (_ & _ & _ & _ & _ & R1).
  destruct (digit_facts m2 H2) as (_ & _ & _ & _ & _ & R2).
  assert (Hc : digit_val m1 = 0 \/ digit_val m1 = 1) by lia.
  rewrite (digit_char m1 H1) at 1.
  unfold Astrology.month_field. rewrite H2.
  destruct Hc as [E | E]; rewrite E; cbn [Z.to_nat Pos.to_nat Nat.add ascii_of_nat];
    simpl Ascii.eqb; cbn [andb].
  - replace (1 <=? digit_val m2) with true by (symmetry; apply Z.leb_le; lia).
    reflexivity.
  - replace (digit_val m2 <=? 2) with true by (symmetry; apply Z.leb_le; lia).
    reflexivity.
Qed.

Lemma eqb_digit_literals (c : ascii) :
  is_digit c = true ->
  Ascii.eqb c "0" = (digit_val c =? 0)
  /\ Ascii.eqb c "3" = (digit_val c =? 3)
  /\ Ascii.eqb c " " = false.
Proof.
  destruct c as [[] [] [] [] [] [] [] []]; intros H;
    try (vm_compute in H; discriminate H); repeat split; reflexivity.
Qed.

Lemma day_field_two_digits (d1 d2 : ascii) :
  is_digit d1 = true -> is_digit d2 = true ->
  1 <= 10 * digit_val d1 + digit_val d2 <= 31 ->
  Astrology.day_field (String d1 (String d2 EmptyString))
  = Some (10 * digit_val d1 + digit_val d2, EmptyString).
Proof.
  intros H1 H2 Hd.
  destruct (digit_facts d1 H1) as (_ & _ & _ & _ & _ & R1).
  destruct (digit_facts d2 H2) as (_ & _ & _ & _ & _ & R2).
  destruct (eqb_digit_literals d1 H1) as (E0 & E3 & _).
  unfold Astrology.day_field. rewrite E0, E3, H1, H2.
  assert (Hc : digit_val d1 = 0 \/ digit_val d1 = 1 \/ digit_val d1 = 2 \/ digit_val d1 = 3)
    by lia.
  destruct Hc as [E | [E | [E | E]]]; rewrite E in *; cbn [Z.eqb Z.leb Z.compare Pos.compare
    Pos.compare_cont Pos.eqb andb Z.mul Z.add Pos.mul Pos.add].
  - replace (1 <=? digit_val d2) with true by (symmetry; apply Z.leb_le; lia).
    reflexivity.
  - reflexivity.
  - reflexivity.
  - replace (digit_val d2 <=? 1) with true by (symmetry; apply Z.leb_le; lia).
    reflexivity.
Qed.

(** What [strptime] makes of a calendar date. *)
Lemma strptime_iso_eq (y1 y2 y3 y4 m1 m2 d1 d2 : ascii) :
  is_digit y1 = true -> is_digit y2 = true -> is_digit y3 = true -> is_digit y4 = true ->
  is_digit m1 = true -> is_digit m2 = true -> is_digit d1 = true -> is_digit d2 = true ->
  1 <= 1000 * digit_val y1 + 100 * digit_val y2 + 10 * digit_val y3 + digit_val y4 ->
  1 <= 10 * digit_val m1 + digit_val m2 <= 12 ->
  1 <= 10 * digit_val d1 + digit_val d2
    <= Astrology.days_in_month
         (1000 * digit_val y1 + 100 * digit_val y2 + 10 * digit_val y3 + digit_val y4)
         (10 * digit_val m1 + digit_val m2) ->
  Astrology.strptime
    (String y1 (String y2 (String y3 (String y4 (String "-"
       (String m1 (String m2 (String "-" (String d1 (String d2 EmptyString))))))))))
  = Ok (1000 * digit_val y1 + 100 * digit_val y2 + 10 * digit_val y3 + digit_val y4,
        10 * digit_val m1 + digit_val m2,
        10 * digit_val d1 + digit_val d2).
Proof.
  intros Y1 Y2 Y3 Y4 M1 M2 D1 D2 Hy Hm Hd.
  unfold Astrology.strptime. rewrite Y1, Y2, Y3, Y4.
  cbn [andb Ascii.eqb Bool.eqb].
  rewrite (month_field_two_digits m1 m2 _ M1 M2 Hm).
  cbn [Ascii.eqb Bool.eqb andb].
  rewrite (day_field_two_digits d1 d2 D1 D2).
  - replace (1 <=? _) with true by (symmetry; apply Z.leb_le; lia).
    replace (_ <=? Astrology.days_in_month _ _) with true
      by (symmetry; apply Z.leb_le; lia).
    reflexivity.
  - pose proof (days_in_month_le_31
                  (1000 * digit_val y1 + 100 * digit_val y2 + 10 * digit_val y3 + digit_val y4)
                  (10 * digit_val m1 + digit_val m2)).
    lia.
Qed.

(** X2.  On every calendar date written YYYY-MM-DD the resolver of the engine
    and the resolver of [astrology.py] return the same sign and element. *)
Theorem resolvers_agree_on_dates (s : string) :
  is_iso_date s = true ->
  analyze_zodiac (PStr s) = Astrology.analyze_zodiac (PStr s).
Proof.
  intros H.
  destruct (is_iso_date_inv s H)
    as (y1 & y2 & y3 & y4 & m1 & m2 & d1 & d2 & -> & (Y1 & Y2 & Y3 & Y4)
        & (M1 & M2 & D1 & D2) & Hy & Hm & Hd).
  rewrite analyze_zodiac_iso_eq by assumption.
  unfold Astrology.analyze_zodiac.
  rewrite strptime_iso_eq by assumption.
  rewrite astrology_find_sign_rows, astrology_rows_rotated.
  apply find_sign_rotated.
Qed.

Lemma resolvers_agree_on_dates_witness :
  analyze_zodiac (PStr "2000-02-29") = Astrology.analyze_zodiac (PStr "2000-02-29").
Proof. apply resolvers_agree_on_dates. reflexivity. Defined.



Lemma well_formed_not_unknown (r : string * string) : well_formed_zodiac r -> r <> UNKNOWN.
Proof.
  intros [Hin _] ->. cbn in Hin. intuition discriminate.
Qed.



Lemma split_on_first_field (y rest : string) :
  has_char "-" y = false ->
  split_on "-" (y ++ String "-" rest) = y :: split_on "-" rest.
Proof.
  intros Hy. unfold split_on.
  rewrite fields_app_sep by reflexivity.
  rewrite fields_free; [reflexivity | ].
  rewrite has_char_free in Hy. apply negb_false_iff in Hy. exact Hy.
Qed.

(** X4.  The engine's resolver never reads the first field: whatever stands
    before the first hyphen, year or not, the answer is that of the rest of
    the string. *)
Theorem analyze_zodiac_ignores_year (y1 y2 rest : string) :
  has_char "-" y1 = false -> has_char "-" y2 = false ->
  analyze_zodiac (PStr (y1 ++ String "-" rest))
  = analyze_zodiac (PStr (y2 ++ String "-" rest)).
Proof.
  intros H1 H2. unfold analyze_zodiac, parse_month_day.
  rewrite !split_on_first_field by assumption.
  reflexivity.
Qed.

Lemma analyze_zodiac_ignores_year_witness :
  analyze_zodiac (PStr ("1990" ++ String "-" "04-21"))
  = analyze_zodiac (PStr ("next year" ++ String "-" "04-21")).
Proof. apply analyze_zodiac_ignores_year; reflexivity. Defined.

Lemma month_field_range (s r : string) (m : Z) :
  Astrology.month_field s = Some (m, r) -> 1 <= m <= 12.
Proof.
  unfold Astrology.month_field.
  destruct s as [ | a [ | b r']]; [discriminate | | ];
    repeat match goal with
           | |- context [if ?c then _ else _] => destruct c eqn:?
           end; intros [= <- <-] || discriminate;
    repeat match goal with
           | H : (_ && _) = true |- _ => apply andb_true_iff in H; destruct H
           | H : is_digit ?c = true |- _ =>
               pose proof (proj2 (proj2 (proj2 (proj2 (proj2 (digit_facts c H))))));
               clear H
           | H : (_ <=? _) = true |- _ => apply Z.leb_le in H
           end; lia.
Qed.

Lemma day_field_range (s r : string) (d : Z) :
  Astrology.day_field s = Some (d, r) -> 1 <= d <= 31.
Proof.
  unfold Astrology.day_field.
  destruct s as [ | a [ | b r']]; [discriminate | | ];
    repeat match goal with
           | |- context [if ?c then _ else _] => destruct c eqn:?
           end; intros [= <- <-] || discriminate;
    repeat match goal with
           | H : (_ && _) = true |- _ => apply andb_true_iff in H; destruct H
           | H : is_digit ?c = true |- _ =>
               pose proof (proj2 (proj2 (proj2 (proj2 (proj2 (digit_facts c H))))));
               clear H
           | H : (_ <=? _) = true |- _ => apply Z.leb_le in H
           end; lia.
Qed.

Lemma strptime_range (s : string) (y m d : Z) :
  Astrology.strptime s = Ok (y, m, d) ->
  1 <= y <= 9999 /\ 1 <= m <= 12 /\ 1 <= d <= Astrology.days_in_month y m.
Proof.
  unfold Astrology.strptime.
  destruct s as [ | y1 [ | y2 [ | y3 [ | y4 [ | c1 r1]]]]]; try discriminate.
  destruct (is_digit y1 && is_digit y2 && is_digit y3 && is_digit y4 && Ascii.eqb c1 "-")
    eqn:Hd; [ | discriminate].
  destruct (Astrology.month_field r1) as [[month [ | c2 r2]] | ] eqn:Em; try discriminate.
  destruct (Ascii.eqb c2 "-"); [ | discriminate].
  destruct (Astrology.day_field r2) as [[day [ | ? ?]] | ] eqn:Ed; try discriminate.
  destruct ((1 <=? _) && (day <=? _)) eqn:Hc; [ | discriminate].
  intros [= <- <- <-].
  apply andb_true_iff in Hc. destruct Hc as [Hy Hday].
  apply Z.leb_le in Hy, Hday.
  repeat match goal with
         | H : (_ && _) = true |- _ => apply andb_true_iff in H; destruct H
         end.
  repeat match goal with
         | H : is_digit ?c = true |- _ =>
             pose proof (proj2 (proj2 (proj2 (proj2 (proj2 (digit_facts c H))))));
             clear H
         end.
  pose proof (month_field_range _ _ _ Em).
  pose proof (day_field_range _ _ _ Ed).
  lia.
Qed.

Lemma astrology_find_sign_month (month day : Z) :
  1 <= month <= 12 ->
  well_formed_zodiac (Astrology.find_sign month day Astrology.ZODIAC_SIGNS).
Proof.
  intros Hm.
  rewrite astrology_find_sign_rows, astrology_rows_rotated, <- find_sign_rotated.
  now apply find_sign_month.
Qed.



(** The two resolvers part on a day the month does not have. *)
Lemma resolvers_part_on_february_30 :
  analyze_zodiac (PStr "1990-02-30") = ("Pisces", "Water")
  /\ Astrology.analyze_zodiac (PStr "1990-02-30") = UNKNOWN.
Proof. split; reflexivity. Qed.

Lemma element_names_of_signs (r : string * string) :
  r = UNKNOWN \/ well_formed_zodiac r -> In (snd r) ELEMENT_NAMES.
Proof.
  intros [-> | [Hin ->]]; [cbn; tauto | ].
  cbn in Hin.
  repeat (destruct Hin as [<- | Hin]; [cbn; tauto | ]). contradiction.
Qed.

Lemma astrology_analyze_zodiac_shape (v : pyval) :
  Astrology.analyze_zodiac v = UNKNOWN
  \/ well_formed_zodiac (Astrology.analyze_zodiac v).
Proof.
  unfold Astrology.analyze_zodiac.
  destruct v as [ | | | | s | | ]; try (left; reflexivity).
  destruct (Astrology.strptime s) as [[[y m] d] | e] eqn:E; [ | left; reflexivity].
  right. apply astrology_find_sign_month. now apply strptime_range in E.
Qed.

(** X6.  Whatever the birthdate, the hint the astrology route sends back is
    the text the table has for the element it sends: an element of either
    resolver is one of the five keys of the hint tables, so the default of
    [astrology_hint] is never used and the engine's own hint, which defaults
    to the empty string, is never empty. *)
Theorem hints_cover_resolved_elements (v : pyval) (birthdate : string) :
  astrology_hint (snd (analyze_zodiac v)) <> EmptyString
  /\ In (snd (Astrology.analyze_zodiac v)) ELEMENT_NAMES
  /\ (let '(zodiac_, element, hint) := get_astrology birthdate in
      (zodiac_, element) = Astrology.analyze_zodiac (PStr birthdate)
      /\ dict_get element AstrologyHints.ASTROLOGY_HINTS = Some hint).
Proof.
  split.
  { pose proof (element_names_of_signs _ (analyze_zodiac_shape v)) as Hin.
    cbn in Hin.
    repeat (destruct Hin as [<- | Hin]; [discriminate | ]). contradiction. }
  split; [apply element_names_of_signs, astrology_analyze_zodiac_shape | ].
  unfold get_astrology.
  pose proof (element_names_of_signs _
                (astrology_analyze_zodiac_shape (PStr birthdate))) as Hin.
  destruct (Astrology.analyze_zodiac (PStr birthdate)) as [z e].
  split; [reflexivity | ].
  cbn in Hin.
  repeat (destruct Hin as [<- | Hin]; [reflexivity | ]). contradiction.
Qed.


(** ** The hour of the day *)

Lemma hour_of_range (t : Z) : 0 <= hour_of t <= 23.
Proof.
  unfold hour_of. pose proof (Z.mod_pos_bound (t / US_PER_HOUR) 24). lia.
Qed.

Lemma temporal_tone_adjust_at_facts (h : Z) (tone_ : string) :
  let tone' := temporal_tone_adjust_at h tone_ in
  (tone_rank tone' <= tone_rank tone_ + 1 /\ tone_rank tone_ <= tone_rank tone' + 1)%nat
  /\ (11 <= h <= 21 -> tone' = tone_)
  /\ (22 <= h \/ h <= 5 -> tone' <> "bright" /\ (tone_rank tone' <= tone_rank tone_)%nat)
  /\ (6 <= h <= 10 -> tone' <> "dark" /\ (tone_rank tone_ <= tone_rank tone')%nat)
  /\ (tone_ <> "bright" -> tone_ <> "neutral" -> tone_ <> "dark" -> tone' = tone_).
Proof.
  assert (Hc : tone_ = "bright" \/ tone_ = "neutral" \/ tone_ = "dark"
               \/ (tone_ <> "bright" /\ tone_ <> "neutral" /\ tone_ <> "dark")).
  { destruct (String.eqb_spec tone_ "bright"); [tauto | ].
    destruct (String.eqb_spec tone_ "neutral"); [tauto | ].
    destruct (String.eqb_spec tone_ "dark"); tauto. }
  unfold temporal_tone_adjust_at.
  destruct Hc as [-> | [-> | [-> | (Hb & Hn & Hd)]]].
  1-3: destruct (Z.leb_spec 22 h), (Z.leb_spec h 5), (Z.leb_spec 6 h), (Z.leb_spec h 10);
    try lia; cbn;
    repeat split; intros; try lia; try congruence; try discriminate.
  apply String.eqb_neq in Hb, Hn, Hd.
  rewrite Hb, Hn, Hd, !andb_false_r.
  apply String.eqb_neq in Hb, Hn, Hd.
  repeat split; intros; try lia; congruence.
Qed.

(** X7.  [temporal_tone_adjust] takes one reading of the clock and moves the
    tone by at most one step on the scale dark, neutral, bright: down at
    night (from 22 to 5 o'clock, when it never returns "bright"), up in the
    morning (from 6 to 10 o'clock, when it never returns "dark"), and not at
    all from 11 to 21 o'clock; a string that is none of the three tones is
    returned as it is at any hour. *)
Theorem temporal_tone_adjust_one_step (clock : nat -> Z) (tone_ : string) (st : state) :
  exists tone',
    temporal_tone_adjust clock tone_ st
    = (Ok tone', mkState (memory_file st) (writes st) (S (tick st)))
    /\ let h := hour_of (clock (tick st)) in
       0 <= h <= 23
       /\ (tone_rank tone' <= tone_rank tone_ + 1 /\ tone_rank tone_ <= tone_rank tone' + 1)%nat
       /\ (11 <= h <= 21 -> tone' = tone_)
       /\ (22 <= h \/ h <= 5 ->
           tone' <> "bright" /\ (tone_rank tone' <= tone_rank tone_)%nat)
       /\ (6 <= h <= 10 -> tone' <> "dark" /\ (tone_rank tone_ <= tone_rank tone')%nat)
       /\ (tone_ <> "bright" -> tone_ <> "neutral" -> tone_ <> "dark" -> tone' = tone_).
Proof.
  exists (temporal_tone_adjust_at (hour_of (clock (tick st))) tone_).
  split; [reflexivity | ].
  split; [apply hour_of_range | apply temporal_tone_adjust_at_facts].
Qed.

Lemma temporal_tone_adjust_one_step_witness :
  fst (temporal_tone_adjust sample_clock "dark" empty_state) = Ok "dark"
  /\ fst (temporal_tone_adjust (fun _ => 63852904800000000) "dark" empty_state)
     = Ok "neutral".
Proof.
  split.
  - destruct (temporal_tone_adjust_one_step sample_clock "dark" empty_state)
      as (tone' & -> & _ & _ & Hday & _).
    simpl. f_equal. apply Hday. vm_compute. split; discriminate.
  - destruct (temporal_tone_adjust_one_step (fun _ => 63852904800000000) "dark" empty_state)
      as (tone' & E & _).
    rewrite E. simpl. vm_compute in E. now injection E as <-.
Defined.

(** ** The signature reads the numeric entries only *)



(** ** Stripping twice *)







Section Vetted.

Variable clock : nat -> Z.
Variable dice : nat -> nat.
Variable write_fails : nat -> bool.
Variable FORCE_RULE_BASED transformers_imports model_loads : bool.
Variable language_model : nat -> string -> result string.
Variable py_format : pyval -> string.
Variable float_of_string : string -> option Q.
Variable json_dumps : pydict -> result string.
Variable isoformat : Z -> string.


End Vetted.


(** ** Cuts *)






Lemma length_append (a b : string) :
  String.length (a ++ b) = (String.length a + String.length b)%nat.
Proof. induction a as [ | c a IH]; simpl; [reflexivity | now rewrite IH]. Qed.






(** ** The rule-based composer *)

Lemma startswith_app (s b : string) : startswith s (s ++ b) = true.
Proof. induction s as [ | c s IH]; simpl; [reflexivity | ]. now rewrite Ascii.eqb_refl. Qed.

Lemma contains_startswith (sub s : string) : startswith sub s = true -> contains sub s = true.
Proof. intros H. destruct s; simpl in *; now rewrite H. Qed.

Lemma contains_head (s b : string) : contains s (s ++ b) = true.
Proof. apply contains_startswith, startswith_app. Qed.

Lemma contains_app_r (sub a b : string) :
  contains sub b = true -> contains sub (a ++ b) = true.
Proof.
  intros H. induction a as [ | c a IH]; [exact H | ].
  change (String c a ++ b) with (String c (a ++ b)).
  cbn [contains]. rewrite IH. apply orb_true_r.
Qed.

Lemma lower_app (a b : string) : lower (a ++ b) = lower a ++ lower b.
Proof. induction a as [ | c a IH]; simpl; [reflexivity | now rewrite IH]. Qed.

(** A substring that is there is counted. *)
Lemma count_contains (sub s : string) :
  nonempty sub = true -> contains sub s = true -> (0 < count sub s)%nat.
Proof.
  intros Hne. unfold count. induction s as [ | c s IH].
  - destruct sub; [discriminate Hne | discriminate].
  - cbn [contains count_from].
    destruct (startswith sub (String c s)); [lia | ]. exact IH.
Qed.

Lemma themes_nonempty (t : string) : In t VOCAB_themes -> nonempty t = true.
Proof.
  intros Hin. cbn in Hin.
  repeat (destruct Hin as [<- | Hin]; [reflexivity | ]). contradiction.
Qed.

Lemma top_theme_some (text : string) (t0 : string) :
  In t0 VOCAB_themes -> contains t0 (lower text) = true ->
  exists t, top_theme text = Some t /\ In t VOCAB_themes
            /\ (0 < count t (lower text))%nat.
Proof.
  intros Hin Hc. pose proof Hin as Hin0.
  destruct (top_theme_first_max text) as (pre & t & post & Htop & Hv & Hpre & Hpost).
  { exists t0. split; [exact Hin | apply count_contains; [now apply themes_nonempty | exact Hc]]. }
  exists t. split; [exact Htop | ].
  split; [rewrite Hv; apply in_or_app; right; now left | ].
  assert (Hge : (count t0 (lower text) <= count t (lower text))%nat).
  { rewrite Hv in Hin. apply in_app_or in Hin.
    rewrite List.Forall_forall in Hpre, Hpost.
    destruct Hin as [Hin | [-> | Hin]];
      [apply Nat.lt_le_incl; now apply Hpre | lia | now apply Hpost]. }
  pose proof (count_contains _ _ (themes_nonempty _ Hin0) Hc). lia.
Qed.

Lemma tight_r_app (a s : string) : tight_r s -> tight_r (a ++ s).
Proof.
  intros [H1 H2]. split; [now apply nonempty_app_r | now apply rstrip_nonempty_id].
Qed.

Lemma tight_r_strings (s : string) : tight_r s -> rstrip s = s.
Proof. now intros [_ H]. Qed.

Lemma le_length_app_r (n : nat) (a b : string) :
  (n <= String.length b)%nat -> (n <= String.length (a ++ b))%nat.
Proof. rewrite length_append. lia. Qed.

Section Composer.

Variable clock : nat -> Z.
Variable dice : nat -> nat.
Variable py_format : pyval -> string.
Variable strftime_long : Z -> string.

Lemma choice_run {A} (pool : list A) (st : state) :
  pool <> [] ->
  exists x, In x pool
            /\ choice dice pool st
               = (Ok x, mkState (memory_file st) (writes st) (S (tick st))).
Proof.
  intros Hne. destruct (nth_error_mod pool (dice (tick st)) Hne) as [x E].
  exists x. split; [eapply List.nth_error_In; exact E | ].
  unfold choice, bind, fresh, lift. cbn [memory_file writes tick]. now rewrite E.
Qed.

Lemma now_run (st : state) :
  now clock st = (Ok (clock (tick st)), mkState (memory_file st) (writes st) (S (tick st))).
Proof. reflexivity. Qed.

Lemma temporal_run (tone_ : string) (st : state) :
  temporal_tone_adjust clock tone_ st
  = (Ok (temporal_tone_adjust_at (hour_of (clock (tick st))) tone_),
     mkState (memory_file st) (writes st) (S (tick st))).
Proof. reflexivity. Qed.

(** The six readings of [rule_based_fortune] and the text put together from
    them. *)
Lemma rule_based_fortune_run (name : pyval) (zodiac_ element tone_ dominant : string)
    (history : list HistoryEntry) (st : state) :
  exists theme_ adj omen tone_line,
    In theme_ VOCAB_themes /\ In adj VOCAB_adjectives /\ In omen VOCAB_omens
    /\ In tone_line
         (dict_get_default (temporal_tone_adjust_at (hour_of (clock (tick st + 3)%nat)) tone_)
            (dict_get_default "neutral" [] VOCAB_tones) VOCAB_tones)
    /\ rule_based_fortune clock dice py_format strftime_long
         name zodiac_ element tone_ dominant history st
       = (Ok (MIRROR_GLYPH ++ " Mirror of " ++ title theme_ ++ " " ++ LONG_DASH ++ " "
              ++ strftime_long (clock (tick st + 5)%nat)
              ++ NL ++ NL
              ++ fmt py_format name ++ ", the " ++ adj ++ " child of " ++ zodiac_ ++ ", "
              ++ tone_line ++ NL
              ++ "Your " ++ dominant ++ " stirs the current of " ++ theme_ ++ ", and "
              ++ astrology_hint element ++ NL
              ++ "As " ++ omen ++ " passes, listen for the quiet next step." ++ NL ++ NL
              ++ match List.last (List.map Some history) None with
                 | Some h => "The mirror remembers a past theme of '" ++ theme h ++ "'."
                 | None => EmptyString
                 end ++ NL
              ++ "May your reflection reveal what your eyes do not."),
          mkState (memory_file st) (writes st) (tick st + 6)).
Proof.
  replace (tick st + 3)%nat with (S (S (S (tick st)))) by lia.
  replace (tick st + 5)%nat with (S (S (S (S (S (tick st)))))) by lia.
  replace (tick st + 6)%nat with (S (S (S (S (S (S (tick st))))))) by lia.
  unfold rule_based_fortune.
  destruct (choice_run VOCAB_themes st ltac:(discriminate)) as (theme_ & H1 & E1).
  unfold bind at 1. rewrite E1.
  set (st1 := mkState (memory_file st) (writes st) (S (tick st))).
  destruct (choice_run VOCAB_adjectives st1 ltac:(discriminate)) as (adj & H2 & E2).
  unfold bind at 1. rewrite E2. subst st1. cbn [memory_file writes tick].
  set (st2 := mkState (memory_file st) (writes st) (S (S (tick st)))).
  destruct (choice_run VOCAB_omens st2 ltac:(discriminate)) as (omen & H3 & E3).
  unfold bind at 1. rewrite E3. subst st2. cbn [memory_file writes tick].
  unfold bind at 1. rewrite temporal_run. cbn [memory_file writes tick].
  set (st4 := mkState (memory_file st) (writes st) (S (S (S (S (tick st)))))).
  set (tone' := temporal_tone_adjust_at _ tone_).
  destruct (choice_run (dict_get_default tone' (dict_get_default "neutral" [] VOCAB_tones)
                          VOCAB_tones) st4 (tone_pool_not_nil tone'))
    as (tone_line & H4 & E4).
  unfold bind at 1. rewrite E4. subst st4. cbn [memory_file writes tick].
  unfold bind at 1. rewrite now_run. cbn [memory_file writes tick]. unfold ret.
  exists theme_, adj, omen, tone_line.
  repeat (split; [assumption | ]). reflexivity.
Qed.

Lemma rule_based_fortune_facts (name : pyval) (zodiac_ element tone_ dominant : string)
    (history : list HistoryEntry) (st : state) :
  exists text,
    rule_based_fortune clock dice py_format strftime_long
      name zodiac_ element tone_ dominant history st
    = (Ok text, mkState (memory_file st) (writes st) (tick st + 6))
    /\ startswith MIRROR_GLYPH text = true
    /\ strip text = text
    /\ (20 <= String.length (strip text))%nat
    /\ contains (fmt py_format name) text = true
    /\ contains zodiac_ text = true
    /\ contains dominant text = true
    /\ contains (strftime_long (clock (tick st + 5)%nat)) text = true
    /\ (exists t, top_theme text = Some t /\ In t VOCAB_themes
                  /\ (0 < count t (lower text))%nat)
    /\ (forall older_entries h, history = (older_entries ++ [h])%list ->
          contains ("The mirror remembers a past theme of '" ++ theme h ++ "'.") text = true).
Proof.
  destruct (rule_based_fortune_run name zodiac_ element tone_ dominant history st)
    as (theme_ & adj & omen & tone_line & _ & _ & _ & _ & E).
  eexists. split; [exact E | ].
  split; [apply startswith_app | ].
  match goal with
  | |- strip ?T = ?T /\ _ =>
      assert (Hs : strip T = T)
        by (unfold strip; rewrite lstrip_app by reflexivity;
            apply tight_r_strings; repeat apply tight_r_app; split; reflexivity)
  end.
  split; [exact Hs | ]. rewrite Hs.
  split; [repeat apply le_length_app_r; vm_compute; lia | ].
  split; [repeat first [apply contains_head | apply contains_app_r] | ].
  split; [repeat first [apply contains_head | apply contains_app_r] | ].
  split; [repeat first [apply contains_head | apply contains_app_r] | ].
  split; [repeat first [apply contains_head | apply contains_app_r] | ].
  split.
  { apply (top_theme_some _ "reflection"); [left; reflexivity | ].
    rewrite !lower_app. repeat apply contains_app_r. reflexivity. }
  intros older_entries h ->.
  rewrite List.map_app. cbn [List.map]. rewrite List.last_last.
  repeat first [apply contains_head | apply contains_app_r].
Qed.

(** X12.  [rule_based_fortune] always returns, after exactly six readings
    (four random draws and two of the clock) and without touching the memory
    file.  Its text has no blank at either end and at least 20 characters, so
    the short-text fallback of [generate_fortune] is never taken for it; it
    holds the name, the sign, the dominant trait and the date as given; it
    always holds a theme word (the closing line has "reflection"), so the
    theme stored for it is a vocabulary word read off the text, never drawn
    at random; and when there is a history it recalls the theme of the last
    entry. *)
Theorem rule_based_fortune_text (name : pyval) (zodiac_ element tone_ dominant : string)
    (history : list HistoryEntry) (st : state) :
  exists text,
    rule_based_fortune clock dice py_format strftime_long
      name zodiac_ element tone_ dominant history st
    = (Ok text, mkState (memory_file st) (writes st) (tick st + 6))
    /\ strip text = text
    /\ (20 <= String.length (strip text))%nat
    /\ contains (fmt py_format name) text = true
    /\ contains zodiac_ text = true
    /\ contains dominant text = true
    /\ contains (strftime_long (clock (tick st + 5)%nat)) text = true
    /\ (exists t, top_theme text = Some t /\ In t VOCAB_themes
                  /\ (0 < count t (lower text))%nat)
    /\ (forall older_entries h, history = (older_entries ++ [h])%list ->
          contains ("The mirror remembers a past theme of '" ++ theme h ++ "'.") text = true).
Proof.
  destruct (rule_based_fortune_facts name zodiac_ element tone_ dominant history st)
    as (text & E & _ & H).
  exists text. split; [exact E | exact H].
Qed.

End Composer.

Lemma rule_based_fortune_text_witness :
  exists text,
    fst (rule_based_fortune sample_clock sample_dice sample_format sample_strftime
           (PStr "Ada") "Taurus" "Earth" "neutral" "focus" [old_entry; new_entry] empty_state)
    = Ok text
    /\ contains "The mirror remembers a past theme of 'dream'." text = true.
Proof.
  destruct (rule_based_fortune_text sample_clock sample_dice sample_format sample_strftime
              (PStr "Ada") "Taurus" "Earth" "neutral" "focus"
              [old_entry; new_entry] empty_state)
    as (text & E & _ & _ & _ & _ & _ & _ & _ & Hh).
  exists text. rewrite E. split; [reflexivity | ].
  apply (Hh [old_entry] new_entry). reflexivity.
Defined.


(** ** The orchestrator with the generative path switched off *)

Lemma bind_ok {A B} (m : M A) (k : A -> M B) (st st' : state) (a : A) :
  m st = (Ok a, st') -> bind m k st = k a st'.
Proof. intros E. unfold bind. now rewrite E. Qed.


Section RuleBasedRun.

Variable clock : nat -> Z.
Variable dice : nat -> nat.
Variable write_fails : nat -> bool.
Variable py_format : pyval -> string.
Variable float_of_string : string -> option Q.
Variable isoformat : Z -> string.
Variable strftime_long : Z -> string.


End RuleBasedRun.



(** ** The memory store: reading back, odd names, a cutoff out of range *)

Lemma get_user_history_string (u : string) (st : state) :
  get_user_history (PStr u) st = (Ok (history_of st u), st).
Proof. reflexivity. Qed.

Lemma last_n_snoc {A} (n : nat) (l : list A) (x : A) :
  last_n (S n) (l ++ [x])%list = (last_n n l ++ [x])%list.
Proof.
  unfold last_n. rewrite List.length_app. simpl List.length.
  rewrite List.skipn_app.
  replace (List.length l + 1 - S n)%nat with (List.length l - n)%nat by lia.
  replace (List.length l - n - List.length l)%nat with 0%nat by lia.
  reflexivity.
Qed.

Lemma history_of_written_eq (m : memory) (s : string) (h : list HistoryEntry) (w t : nat) :
  history_of (mkState (Some (<[s := h]> m)) w t) s = h.
Proof. unfold history_of, stored. simpl. now rewrite lookup_insert_eq. Qed.

Lemma history_of_written_ne (m : memory) (s u : string) (h : list HistoryEntry) (w t : nat) :
  u <> s -> history_of (mkState (Some (<[s := h]> m)) w t) u = default [] (m !! u).
Proof.
  intros Hu. unfold history_of, stored. simpl.
  rewrite lookup_insert_ne by congruence. reflexivity.
Qed.

Section MemoryRoundTrip.

Variable clock : nat -> Z.
Variable dice : nat -> nat.
Variable write_fails : nat -> bool.
Variable py_format : pyval -> string.
Variable isoformat : Z -> string.

(** X14.  What [get_user_history] reads back after [append_memory_entry]
    for a name that is a string.  When the write succeeds: the last eleven
    entries of the former history followed by the new entry, which holds the
    text, sign and tone given; the history of every other user is as it was.
    When the write fails: every history is as it was.  Reading never changes
    the state. *)
Theorem append_then_get_user_history (s text z t : string) (theme_ : option string)
    (st : state) :
  let st' := snd (append_memory_entry clock dice write_fails py_format isoformat
                    (PStr s) text z t theme_ st) in
  ((forall n, write_fails n = false) ->
   exists e,
     fortune e = text /\ zodiac e = z /\ tone e = t
     /\ get_user_history (PStr s) st'
        = (Ok (last_n (KEEP_HISTORY - 1) (history_of st s) ++ [e])%list, st')
     /\ forall u, u <> s -> get_user_history (PStr u) st' = (Ok (history_of st u), st'))
  /\ ((forall n, write_fails n = true) ->
      forall u, get_user_history (PStr u) st' = (Ok (history_of st u), st')).
Proof.
  intros st'.
  destruct (append_string clock dice write_fails py_format isoformat s text z t theme_ st)
    as (e & k & _ & He2 & He3 & He4 & _ & Happ).
  split; intros Hw.
  - exists e. repeat (split; [assumption | ]).
    subst st'. rewrite Happ, Hw. cbn [snd].
    rewrite !get_user_history_string.
    split.
    + do 2 f_equal. rewrite history_of_written_eq.
      change KEEP_HISTORY with (S (KEEP_HISTORY - 1)) at 1. apply last_n_snoc.
    + intros u Hu. rewrite get_user_history_string. do 2 f_equal.
      now apply history_of_written_ne.
  - intros u. subst st'. rewrite Happ, Hw. cbn [snd].
    rewrite get_user_history_string. reflexivity.
Qed.

(** X15.  Names that are not strings.  For a list or a dict (a name that
    cannot be hashed) [append_memory_entry] does nothing at all: the lookup
    raises and the exception is swallowed.  For None, a bool or a number the
    lookup finds no history, since the keys of the loaded file are strings:
    what is written under the JSON key of the name is the new entry alone,
    whatever was stored there before, so such a history never grows. *)
Theorem append_memory_entry_odd_names (name : pyval) (text z t : string)
    (theme_ : option string) (st : state) :
  ((exists l, name = PList l) \/ (exists d, name = PDict d) ->
   append_memory_entry clock dice write_fails py_format isoformat name text z t theme_ st
   = (Ok tt, st))
  /\ ((forall s, name <> PStr s) -> (forall l, name <> PList l) ->
      (forall d, name <> PDict d) ->
      (forall n, write_fails n = false) ->
      exists e,
        fortune e = text
        /\ history_of (snd (append_memory_entry clock dice write_fails py_format isoformat
                              name text z t theme_ st))
             (json_key py_format name)
           = [e]).
Proof.
  pose proof (append_any clock dice write_fails py_format isoformat
                name text z t theme_ st) as H.
  split.
  - intros [[l ->] | [d ->]]; exact H.
  - intros Hs Hl Hd Hw.
    assert (Hget : memory_get (stored st) name = Ok []).
    { destruct name as [ | b | i | q | s | l | d]; try reflexivity;
        [now destruct (Hs s) | now destruct (Hl l) | now destruct (Hd d)]. }
    rewrite Hget in H. destruct H as (e & k & _ & He & _ & _ & _ & Happ).
    exists e. split; [exact He | ].
    rewrite Happ, Hw. cbn [snd].
    rewrite history_of_written_eq. reflexivity.
Qed.

End MemoryRoundTrip.

Lemma append_then_get_user_history_witness :
  exists e,
    fortune e = "A new fortune."
    /\ fst (get_user_history (PStr "Ada")
              (snd (append_memory_entry sample_clock sample_dice (fun _ => false)
                      sample_format sample_isoformat
                      (PStr "Ada") "A new fortune." "Aries" "dark" None sample_state)))
       = Ok [old_entry; new_entry; e]
    /\ fst (get_user_history (PStr "Bob")
              (snd (append_memory_entry sample_clock sample_dice (fun _ => false)
                      sample_format sample_isoformat
                      (PStr "Ada") "A new fortune." "Aries" "dark" None sample_state)))
       = Ok [old_entry].
Proof.
  destruct (append_then_get_user_history sample_clock sample_dice (fun _ => false)
              sample_format sample_isoformat "Ada" "A new fortune." "Aries" "dark" None
              sample_state) as [H _].
  destruct (H (fun _ => eq_refl)) as (e & He & _ & _ & Hget & Hframe).
  exists e. split; [exact He | ]. split.
  - rewrite Hget. reflexivity.
  - rewrite (Hframe "Bob") by discriminate. reflexivity.
Defined.

Lemma append_memory_entry_odd_names_witness :
  append_memory_entry sample_clock sample_dice (fun _ => false) sample_format
    sample_isoformat (PList [PStr "Ada"]) "A new fortune." "Aries" "dark" None sample_state
  = (Ok tt, sample_state)
  /\ exists e,
       fortune e = "A new fortune."
       /\ history_of (snd (append_memory_entry sample_clock sample_dice (fun _ => false)
                             sample_format sample_isoformat PNone "A new fortune." "Aries"
                             "dark" None
                             (mkState (Some (<["null" := [old_entry; new_entry]]> ∅)) 0 0)))
            "null"
          = [e].
Proof.
  split.
  - apply (proj1 (append_memory_entry_odd_names sample_clock sample_dice (fun _ => false)
                    sample_format sample_isoformat (PList [PStr "Ada"]) "A new fortune."
                    "Aries" "dark" None sample_state)).
    left. now exists [PStr "Ada"].
  - apply (proj2 (append_memory_entry_odd_names sample_clock sample_dice (fun _ => false)
                    sample_format sample_isoformat PNone "A new fortune."
                    "Aries" "dark" None
                    (mkState (Some (<["null" := [old_entry; new_entry]]> ∅)) 0 0)));
      try discriminate. reflexivity.
Defined.

(** X16.  A cutoff that is not a date: when the number of days is beyond
    the range of [timedelta], or the cutoff would fall before year 1 or after
    year 9999, [purge_memory_older_than] returns 0 after one reading of the
    clock, and leaves the memory file unwritten. *)
Theorem purge_memory_older_than_out_of_range
    (clock : nat -> Z) (write_fails : nat -> bool) (fromisoformat : string -> option datetime)
    (days : Z) (st : state) :
  MAX_DELTA_DAYS < Z.abs days
  \/ clock (tick st) - days * US_PER_DAY < 0
  \/ MAX_MICROS < clock (tick st) - days * US_PER_DAY ->
  purge_memory_older_than clock write_fails fromisoformat days st
  = (Ok 0%nat, mkState (memory_file st) (writes st) (S (tick st))).
Proof.
  intros H.
  assert (E : exists e, minus_days (clock (tick st)) days = Raise e).
  { unfold minus_days.
    destruct (Z.ltb_spec MAX_DELTA_DAYS (Z.abs days)); [now eexists | ].
    destruct (Z.leb_spec 0 (clock (tick st) - days * US_PER_DAY));
      destruct (Z.leb_spec (clock (tick st) - days * US_PER_DAY) MAX_MICROS);
      cbn [andb]; try (now eexists). lia. }
  destruct E as [e E].
  unfold purge_memory_older_than, catch.
  erewrite bind_ok by reflexivity.
  erewrite bind_ok by reflexivity.
  cbn [memory_file writes tick].
  unfold bind, lift. rewrite E. reflexivity.
Qed.

Lemma purge_memory_older_than_out_of_range_witness :
  purge_memory_older_than sample_clock (fun _ => false) sample_fromisoformat 800000
    sample_state
  = (Ok 0%nat, mkState (Some sample_store) 0 1).
Proof.
  apply (purge_memory_older_than_out_of_range sample_clock (fun _ => false)
           sample_fromisoformat 800000 sample_state).
  right. left. vm_compute. reflexivity.
Defined.

(** ** Analytics *)

Lemma max_count_from_spec (rest : list (string * nat)) (best : string * nat) :
  In (max_count_from best rest) (best :: rest)
  /\ List.Forall (fun x => (snd x <= snd (max_count_from best rest))%nat) (best :: rest).
Proof.
  revert best. induction rest as [ | x rest IH]; intros best; simpl.
  - split; [now left | repeat constructor].
  - destruct (Nat.ltb_spec (snd best) (snd x)) as [Hlt | Hge].
    + destruct (IH x) as [Hin Hall]. split; [now right | ].
      inversion Hall as [ | ? ? Hx Hrest]; subst.
      constructor; [lia | now constructor].
    + destruct (IH best) as [Hin Hall]. split.
      * destruct Hin as [<- | Hin]; [now left | right; now right].
      * inversion Hall as [ | ? ? Hb Hrest]; subst.
        constructor; [exact Hb | constructor; [lia | exact Hrest]].
Qed.

Lemma occurrences_not_in (w : string) (words : list string) :
  ~ In w words -> occurrences w words = 0%nat.
Proof.
  unfold occurrences. induction words as [ | x words IH]; simpl; [reflexivity | ].
  intros H. destruct (String.eqb_spec w x) as [-> | Hne]; [tauto | ]. apply IH. tauto.
Qed.

(** The most common word of a list: it is in the list, and no word occurs
    more often. *)
Lemma most_common_spec (words : list string) :
  words <> [] ->
  exists w,
    most_common (counter words) = Some w /\ In w words
    /\ forall w', (occurrences w' words <= occurrences w words)%nat.
Proof.
  intros Hne.
  destruct (counter words) as [ | x rest] eqn:E.
  { destruct words as [ | w0 words]; [now destruct Hne | ].
    pose proof (counter_has (w0 :: words) w0 (or_introl eq_refl)) as Hin.
    rewrite E in Hin. destruct Hin. }
  destruct (max_count_from_spec rest x) as [Hin Hall].
  destruct (max_count_from x rest) as [w n] eqn:Em.
  rewrite <- E in Hin, Hall.
  destruct (counter_entry _ _ _ Hin) as [Hn Hw].
  exists w. unfold most_common. rewrite Em. split; [reflexivity | ].
  split; [exact Hw | ].
  intros w'. destruct (in_dec string_dec w' words) as [Hin' | Hnin].
  - pose proof (counter_has words w' Hin') as Hc.
    rewrite List.Forall_forall in Hall. specialize (Hall _ Hc). simpl in Hall. lia.
  - rewrite (occurrences_not_in w' words Hnin). lia.
Qed.

(** X17.  [summarize_user_history] for a name that is a string reads the
    store and changes nothing.  The count is the length of the history;
    "recent" holds the last five entries (all of them when there are fewer),
    newest first.  For an empty or missing history the two most common fields
    are None; otherwise each is a tone (a theme) of the history that no
    other tone (theme) outnumbers. *)
Theorem summarize_user_history_contract (s : string) (st : state) :
  exists sm,
    summarize_user_history (PStr s) st = (Ok sm, st)
    /\ summary_count sm = List.length (history_of st s)
    /\ recent sm = List.rev (last_n 5 (history_of st s))
    /\ List.length (recent sm) = Nat.min 5 (List.length (history_of st s))
    /\ (history_of st s = [] ->
        most_common_tone sm = None /\ most_common_theme sm = None)
    /\ (forall older_entries e,
          history_of st s = (older_entries ++ [e])%list ->
          List.hd_error (recent sm) = Some e
          /\ (exists t, most_common_tone sm = Some t
                        /\ In t (List.map tone (history_of st s))
                        /\ forall t', (occurrences t' (List.map tone (history_of st s))
                                       <= occurrences t (List.map tone (history_of st s)))%nat)
          /\ (exists t, most_common_theme sm = Some t
                        /\ In t (List.map theme (history_of st s))
                        /\ forall t', (occurrences t' (List.map theme (history_of st s))
                                       <= occurrences t
                                            (List.map theme (history_of st s)))%nat)).
Proof.
  unfold summarize_user_history.
  erewrite bind_ok by reflexivity. erewrite bind_ok by reflexivity.
  change (default [] (default ∅ (memory_file st) !! s)) with (history_of st s).
  destruct (history_of st s) as [ | h0 hist] eqn:Eh.
  { eexists. split; [reflexivity | ]. cbn.
    repeat (split; [reflexivity | ]). split; [auto | ].
    intros older e H. destruct older; discriminate H. }
  eexists. split; [reflexivity | ]. cbn [summary_count recent most_common_tone
                                          most_common_theme].
  split; [reflexivity | ]. split; [reflexivity | ].
  split.
  { rewrite List.length_rev. unfold last_n. rewrite List.length_skipn. lia. }
  split; [discriminate | ].
  intros older e Hsplit. split.
  { rewrite Hsplit. change 5%nat with (S 4). rewrite last_n_snoc.
    rewrite List.rev_app_distr. reflexivity. }
  split; apply most_common_spec; discriminate.
Qed.

Lemma summarize_user_history_contract_witness :
  exists sm,
    summarize_user_history (PStr "Ada") sample_state = (Ok sm, sample_state)
    /\ summary_count sm = 2%nat
    /\ List.hd_error (recent sm) = Some new_entry.
Proof.
  destruct (summarize_user_history_contract "Ada" sample_state)
    as (sm & E & Hc & _ & _ & _ & Hlast).
  exists sm. split; [exact E | ]. split; [exact Hc | ].
  apply (Hlast [old_entry] new_entry). reflexivity.
Defined.

(** ** Batch generation *)

Lemma quiet_catch {A} (m : M A) (h : exn -> M A) :
  quiet m -> (forall e, quiet (h e)) -> quiet (catch m h).
Proof.
  intros Hm Hh st. specialize (Hm st). unfold catch.
  destruct (m st) as [[a | e] st1]; simpl in *; [exact Hm | ].
  eapply same_file_trans; [exact Hm | apply Hh].
Qed.

Lemma quiet_get_user_history (name : pyval) : quiet (get_user_history name).
Proof.
  unfold get_user_history.
  apply quiet_bind; [apply quiet_reads_only, reads_only_load | intros mem].
  apply quiet_lift.
Qed.

Section BatchFacts.

Variable clock : nat -> Z.
Variable dice : nat -> nat.
Variable write_fails : nat -> bool.
Variable FORCE_RULE_BASED : bool.
Variable transformers_imports : bool.
Variable model_loads : bool.
Variable language_model : nat -> string -> result string.
Variable py_format : pyval -> string.
Variable float_of_string : string -> option Q.
Variable json_dumps : pydict -> result string.
Variable isoformat : Z -> string.
Variable strftime_long : Z -> string.
Variable exn_message : exn -> string.

Let batch_one' :=
  batch_one clock dice write_fails FORCE_RULE_BASED transformers_imports model_loads
    language_model py_format float_of_string json_dumps isoformat strftime_long exn_message.

Let batch_loop' :=
  batch_loop clock dice write_fails FORCE_RULE_BASED transformers_imports model_loads
    language_model py_format float_of_string json_dumps isoformat strftime_long exn_message.

Lemma batch_one_returns (force : bool) (name : string) (profile : pyval) (st : state) :
  exists f st', batch_one' force name profile st = (Ok f, st').
Proof.
  unfold batch_one', batch_one, catch.
  match goal with |- context [match ?m st with _ => _ end] => destruct (m st) as [[f | e] st1] end.
  - now exists f, st1.
  - eexists _, _. reflexivity.
Qed.

Lemma batch_one_forced (name : string) (profile : pyval) (st : state) :
  exists f st',
    batch_one' true name profile st = (Ok f, st')
    /\ same_file st st'
    /\ match profile with
       | PDict _ => startswith MIRROR_GLYPH f = true
       | _ => startswith "[error generating fortune: " f = true
       end.
Proof.
  unfold batch_one', batch_one, catch.
  destruct profile as [ | b | i | q | s | l | d];
    try (eexists _, _; split; [reflexivity | split; [apply same_file_refl | reflexivity]]).
  cbn [items]. erewrite bind_ok by reflexivity.
  destruct (analyze_zodiac _) as [zodiac_ elem].
  destruct (compute_personality_signature _ _) as [tone_ dom].
  erewrite bind_ok by apply get_user_history_string.
  destruct (rule_based_fortune_facts clock dice py_format strftime_long
              (PStr name) zodiac_ elem tone_ dom (history_of st name) st)
    as (text & E & Hg & _).
  rewrite E. exists text. eexists. split; [reflexivity | ].
  split; [split; reflexivity | exact Hg].
Qed.

Lemma batch_loop_run (force : bool) (profiles : list (string * pyval))
    (results : list (string * string)) (st : state) :
  List.NoDup (List.map fst results ++ List.map fst profiles)%list ->
  exists new st',
    batch_loop' force profiles results st = (Ok (results ++ new)%list, st')
    /\ List.map fst new = List.map fst profiles
    /\ (force = true -> same_file st st' /\ List.Forall2 batch_result profiles new).
Proof.
  revert results st.
  induction profiles as [ | [name profile] rest IH]; intros results st Hnd.
  - exists [], st. rewrite app_nil_r. split; [reflexivity | ].
    split; [reflexivity | ]. intros _. split; [apply same_file_refl | constructor].
  - assert (Hone : exists f st1,
               batch_one' force name profile st = (Ok f, st1)
               /\ (force = true ->
                   same_file st st1
                   /\ match profile with
                      | PDict _ => startswith MIRROR_GLYPH f = true
                      | _ => startswith "[error generating fortune: " f = true
                      end)).
    { destruct force.
      - destruct (batch_one_forced name profile st) as (f & st1 & E & H1 & H2).
        exists f, st1. auto.
      - destruct (batch_one_returns false name profile st) as (f & st1 & E).
        exists f, st1. split; [exact E | discriminate]. }
    destruct Hone as (f & st1 & E & Hforce).
    cbn [List.map fst] in Hnd.
    assert (Hfresh : ~ In name (List.map fst results)).
    { apply List.NoDup_remove_2 in Hnd. intros H. apply Hnd.
      apply in_or_app. now left. }
    destruct (IH (results ++ [(name, f)])%list st1) as (new & st' & Erun & Hkeys & Hrest).
    { rewrite List.map_app, <- app_assoc. exact Hnd. }
    exists ((name, f) :: new), st'.
    unfold batch_loop'. cbn [batch_loop]. fold batch_loop'. fold batch_one'.
    erewrite bind_ok by exact E.
    rewrite dict_set_fresh by exact Hfresh.
    rewrite Erun, <- app_assoc.
    split; [reflexivity | ]. split; [cbn; now f_equal | ].
    intros Hf. destruct (Hforce Hf) as [H1 H2]. destruct (Hrest Hf) as [H3 H4].
    split; [eapply same_file_trans; eassumption | ].
    constructor; [split; [reflexivity | exact H2] | exact H4].
Qed.

(** X18.  [batch_generate_for_users] never raises and returns one result
    for each user, under the user's name and in the order of the input.
    With [force_rule_based] nothing is stored: the memory file is not
    written, although a fortune is composed for every profile that is a dict
    (a profile that is not a dict gets the error line instead). *)
Theorem batch_generate_for_users_contract (user_profiles : list (string * pyval))
    (force_rule_based : bool) (st : state) :
  List.NoDup (List.map fst user_profiles) ->
  exists results st',
    batch_generate_for_users clock dice write_fails FORCE_RULE_BASED transformers_imports
      model_loads language_model py_format float_of_string json_dumps isoformat
      strftime_long exn_message user_profiles force_rule_based st
    = (Ok results, st')
    /\ List.map fst results = List.map fst user_profiles
    /\ (force_rule_based = true ->
        same_file st st' /\ List.Forall2 batch_result user_profiles results).
Proof.
  intros Hnd.
  destruct (batch_loop_run force_rule_based user_profiles [] st Hnd)
    as (new & st' & E & Hkeys & Hforce).
  exists new, st'. split; [exact E | ]. split; assumption.
Qed.

End BatchFacts.

Lemma batch_generate_for_users_contract_witness :
  exists results st',
    batch_generate_for_users sample_clock sample_dice (fun _ => false) true true true
      silent_model sample_format sample_float sample_dumps sample_isoformat sample_strftime
      (fun _ => "error") [ ("Ada", PDict ada); ("Bob", PNone) ] true sample_state
    = (Ok results, st')
    /\ List.map fst results = [ "Ada"; "Bob" ]
    /\ same_file sample_state st'.
Proof.
  destruct (batch_generate_for_users_contract sample_clock sample_dice (fun _ => false)
              true true true silent_model sample_format sample_float sample_dumps
              sample_isoformat sample_strftime (fun _ => "error")
              [ ("Ada", PDict ada); ("Bob", PNone) ] true sample_state)
    as (results & st' & E & Hk & Hf).
  - simpl. nodup_strings.
  - exists results, st'. split; [exact E | ]. split; [exact Hk | ].
    apply Hf. reflexivity.
Defined.

(** ** The cleaning script and the validator of the engine *)




(** ** What the cleaner returns has no blank at its ends *)











(** ** The generative path when the model is not there *)

(** X21.  When the model cannot be initialised (the package does not
    import, the rule-based switch is on, or loading the weights fails),
    [generate_fortune] does exactly what it does with the rule-based switch
    on: the same text and the same state, readings included, whatever the
    language model and the serialiser are. *)
Theorem generate_fortune_without_model
    (clock : nat -> Z) (dice : nat -> nat) (write_fails : nat -> bool)
    (FORCE_RULE_BASED transformers_imports model_loads : bool)
    (language_model : nat -> string -> result string)
    (py_format : pyval -> string) (float_of_string : string -> option Q)
    (json_dumps : pydict -> result string) (isoformat strftime_long : Z -> string)
    (user_data : pydict) (st : state) :
  init_model FORCE_RULE_BASED transformers_imports model_loads = false ->
  generate_fortune clock dice write_fails FORCE_RULE_BASED transformers_imports model_loads
    language_model py_format float_of_string json_dumps isoformat strftime_long user_data st
  = generate_fortune clock dice write_fails true transformers_imports model_loads
      language_model py_format float_of_string json_dumps isoformat strftime_long
      user_data st.
Proof.
  intros Hinit.
  unfold generate_fortune, generate_fortune_body.
  replace (TRANSFORMERS_AVAILABLE true transformers_imports) with false
    by (unfold TRANSFORMERS_AVAILABLE; now rewrite andb_false_r).
  destruct (TRANSFORMERS_AVAILABLE FORCE_RULE_BASED transformers_imports) eqn:HTA;
    [ | reflexivity].
  assert (Hml : ml_attempt clock dice write_fails FORCE_RULE_BASED transformers_imports
                  model_loads language_model py_format float_of_string json_dumps
                  isoformat user_data st
                = (Ok None, st)).
  { unfold ml_attempt, catch, bind, generate_ml_fortune. rewrite Hinit. reflexivity. }
  unfold catch. erewrite bind_ok by exact Hml. reflexivity.
Qed.

Lemma generate_fortune_without_model_witness :
  generate_fortune sample_clock sample_dice (fun _ => false) false true false poetic_model
    sample_format sample_float sample_dumps sample_isoformat sample_strftime ada sample_state
  = generate_fortune sample_clock sample_dice (fun _ => false) true true false poetic_model
      sample_format sample_float sample_dumps sample_isoformat sample_strftime ada
      sample_state.
Proof. apply generate_fortune_without_model. reflexivity. Defined.

(** ** The year of the training record *)





(** ** The entry stored by the generative path *)



Section GenerativeRun.

Variable clock : nat -> Z.
Variable dice : nat -> nat.
Variable write_fails : nat -> bool.
Variable FORCE_RULE_BASED transformers_imports model_loads : bool.
Variable language_model : nat -> string -> result string.
Variable py_format : pyval -> string.
Variable float_of_string : string -> option Q.
Variable json_dumps : pydict -> result string.
Variable isoformat : Z -> string.


End GenerativeRun.

